(** * FreshAI: the recipe pipeline of [attached_assets/fresh_1754513375078.py]

    A shallow embedding of the Python module and the properties of its
    functions.  Python dictionaries are finite maps with string keys, the
    functions of the module are computations in a monad that threads the
    log of the calls made to the outside (HTTP, page loader, splitter,
    embeddings, vector index, language model chain) and that can raise a
    Python exception.  A string holds the bytes of the UTF-8 text. *)

From Stdlib Require Import ZArith String Ascii List Floats.SpecFloat.
From stdpp Require Import base strings gmap list pretty.

Local Open Scope Z_scope.
Local Open Scope string_scope.
Local Open Scope list_scope.

(** ** Python values *)

(** The values that [json.loads] can produce and that the script passes
    around: [None], booleans, integers, floats, strings, lists and
    dictionaries with string keys. *)
#[warnings="-register-all"]
Inductive PyVal : Type :=
| PyNone
| PyBool (b : bool)
| PyInt (n : Z)
| PyFloat (f : spec_float)
| PyStr (s : string)
| PyList (l : list PyVal)
| PyDict (d : gmap string PyVal).

(** The exceptions that occur in the module.  [ExternalError] stands for any
    exception raised inside a library call to the outside (connection
    failures, timeouts, model service errors). *)
Inductive PyExn : Type :=
| NameError (name : string)
| AttributeError (attr : string)
| TypeError (msg : string)
| HTTPError (status_code : Z)
| JSONDecodeError
| ExternalError (msg : string).

(** A page or a chunk of a page: LangChain's [Document]. *)
Record Document : Type := mkDocument {
  page_content : string;
  source : string
}.

(** [requests.Response], as far as the script looks at it: the status code
    and the decoded body ([None] when the body is not valid JSON, in which
    case [response.json()] raises). *)
Record Response : Type := mkResponse {
  status_code : Z;
  json_body : option PyVal
}.

(** Objects that the script builds from library classes. *)
Record Embeddings : Type := mkEmbeddings { model_name : string }.

Record VectorStore : Type := mkVectorStore {
  indexed_chunks : list Document;
  embedding_function : Embeddings
}.

Record Retriever : Type := mkRetriever {
  vectorstore : VectorStore;
  search_kwargs : gmap string PyVal
}.

Record PromptTemplate : Type := mkPromptTemplate {
  input_variables : list string;
  template : string
}.

Record ChatOpenAI : Type := mkChatOpenAI {
  api_key : PyVal;
  model : string;
  temperature : spec_float
}.

(** The steps of the first stage of the chain: a retriever or
    [RunnablePassthrough()]. *)
Inductive Runnable : Type :=
| RunRetriever (r : Retriever)
| RunPassthrough.

(** [{...} | prompt_template | client | StrOutputParser()] *)
Record RagChain : Type := mkRagChain {
  chain_inputs : gmap string Runnable;
  chain_prompt : PromptTemplate;
  chain_llm : ChatOpenAI
}.

(** Objects reached through names, calls and the minus operators of line
    91: what a name is bound to, the result of calling an object with keyword
    arguments, of negating one, of subtracting two. *)
Inductive PyObj : Type :=
| GlobalObj (name : string)
| CallOf (callee : PyObj) (kwargs : gmap string PyVal)
| NegOf (operand : PyObj)
| SubOf (left right : PyObj).

(** ** Calls to the outside *)

Inductive Event : Type :=
| HttpPost (url : string) (headers : gmap string string) (data : gmap string PyVal)
| HttpGet (url : string) (headers : gmap string string) (params : gmap string string)
| ObjCall (callee : PyObj) (kwargs : gmap string PyVal)
| ObjNeg (operand : PyObj)
| ObjSub (left right : PyObj)
| PageLoad (urls : list string)
| SplitDocuments (splitter : PyObj) (documents : list Document)
| LoadEmbeddings (name : string)
| BuildIndex (chunks : list Document) (embeddings : Embeddings)
| ChainInvoke (chain : RagChain) (input : gmap string PyVal).

Definition Trace : Type := list Event.

(** What each call gives back when it does not raise. *)
Definition Answer (e : Event) : Type :=
  match e with
  | HttpPost _ _ _ | HttpGet _ _ _ => Response
  | PageLoad _ | SplitDocuments _ _ => list Document
  | ObjCall _ _ | ObjNeg _ | ObjSub _ _ => unit
  | LoadEmbeddings _ | BuildIndex _ _ => unit
  | ChainInvoke _ _ => string
  end.

(** The outside of the script: the process environment read by [os.getenv],
    the answer of every library call (it may depend on all the calls made
    before, so services with state and a model sampled at non-zero
    temperature are covered), and the interpreter's [str()] of floats and
    containers. *)
Record World : Type := mkWorld {
  environ : string -> option string;
  respond : Trace -> forall e : Event, PyExn + Answer e;
  repr_compound : PyVal -> string
}.

(** ** The monad of the script's functions *)

Definition M (A : Type) : Type := World -> Trace -> (PyExn + A) * Trace.

Definition ret {A} (a : A) : M A := fun _ t => (inr a, t).

Definition raise {A} (e : PyExn) : M A := fun _ t => (inl e, t).

Definition bind {A B} (m : M A) (k : A -> M B) : M B :=
  fun W t =>
    match m W t with
    | (inl e, t') => (inl e, t')
    | (inr a, t') => k a W t'
    end.

#[global] Instance M_ret : MRet M := @ret.
#[global] Instance M_bind : MBind M := fun A B k m => bind m k.

Definition ask : M World := fun W t => (inr W, t).

(** A library call: it is logged, and the world answers or raises. *)
Definition call (e : Event) : M (Answer e) :=
  fun W t => (respond W t e, t ++ [e]).

(** The result and the log of a run. *)
Definition outcome {A} (r : (PyExn + A) * Trace) : PyExn + A := fst r.
Definition log {A} (r : (PyExn + A) * Trace) : Trace := snd r.

(** ** Python operations used by the script *)

(** [os.getenv(name)] *)
Definition getenv (W : World) (name : string) : PyVal :=
  match environ W name with
  | Some s => PyStr s
  | None => PyNone
  end.

(** [str(v)], which is what an f-string field [{v}] inserts. *)
Definition py_str (W : World) (v : PyVal) : string :=
  match v with
  | PyNone => "None"
  | PyBool true => "True"
  | PyBool false => "False"
  | PyInt n => pretty n
  | PyStr s => s
  | PyFloat _ | PyList _ | PyDict _ => repr_compound W v
  end.

(** [v.get(key, dflt)]: only a dictionary has the method. *)
Definition py_get (v : PyVal) (key : string) (dflt : PyVal) : M PyVal :=
  match v with
  | PyDict d => ret (default dflt (d !! key))
  | _ => raise (AttributeError "get")
  end.

(** [type(v).__name__] *)
Definition type_name (v : PyVal) : string :=
  match v with
  | PyNone => "NoneType"
  | PyBool _ => "bool"
  | PyInt _ => "int"
  | PyFloat _ => "float"
  | PyStr _ => "str"
  | PyList _ => "list"
  | PyDict _ => "dict"
  end.

(** [for item in v[:1]]: the elements the loop visits.  A list gives its
    first element if it has one, a string its first character; a dictionary
    cannot be indexed by a slice (a [TypeError] up to Python 3.11, where a
    slice cannot be hashed, and a [KeyError] from 3.12 on; the former is
    kept here) and the other values cannot be indexed: the message of the
    [TypeError] names their type. *)
Definition py_slice1 (v : PyVal) : M (list PyVal) :=
  match v with
  | PyList l => ret (take 1 l)
  | PyStr s =>
      ret (match s with
           | EmptyString => []
           | String c _ => [PyStr (String c EmptyString)]
           end)
  | PyDict _ => raise (TypeError "unhashable type: 'slice'")
  | _ => raise (TypeError ("'" +:+ type_name v +:+ "' object is not subscriptable"))
  end.

(** [response.raise_for_status()]: requests raises [HTTPError] for the
    client errors 400..499 and the server errors 500..599. *)
Definition raise_for_status (r : Response) : M unit :=
  if bool_decide (400 <= status_code r < 600)
  then raise (HTTPError (status_code r))
  else ret tt.

(** [response.json()] *)
Definition json (r : Response) : M PyVal :=
  match json_body r with
  | Some v => ret v
  | None => raise JSONDecodeError
  end.

(** ** Module level (lines 15 to 18) *)

Definition client (W : World) : ChatOpenAI :=
  {| api_key := getenv W "OPENAI_API_KEY";
     model := "gpt-4";
     (* the double nearest to 0.7 *)
     temperature := S754_finite false 6305039478318694 (-53) |}.

Definition WALMART_CLIENT_ID (W : World) : PyVal := getenv W "WALMART_CLIENT_ID".
Definition WALMART_CLIENT_SECRET (W : World) : PyVal := getenv W "WALMART_CLIENT_SECRET".

(** ** The retailer functions (lines 20 to 71) *)

Definition token_url : string := "https://marketplace.walmartapis.com/v3/token".
Definition items_url : string := "https://marketplace.walmartapis.com/v3/items".

Definition token_headers : gmap string string :=
  {[ "Content-Type" := "application/x-www-form-urlencoded" ]}.

Definition token_data (W : World) : gmap string PyVal :=
  {[ "grant_type" := PyStr "client_credentials";
     "client_id" := WALMART_CLIENT_ID W;
     "client_secret" := WALMART_CLIENT_SECRET W ]}.

Definition get_walmart_access_token : M PyVal :=
  W ← ask;
  let url := token_url in
  let headers := token_headers in
  let data := token_data W in
  response ← call (HttpPost url headers data);
  _ ← raise_for_status response;
  body ← json response;
  py_get body "access_token" PyNone.

Definition search_headers (W : World) (access_token : PyVal) : gmap string string :=
  {[ "Authorization" := "Bearer " +:+ py_str W access_token;
     "WM_QOS.CORRELATION_ID" := "1234567890";
     "WM_SVC.NAME" := "Walmart Marketplace" ]}.

(** The body of the comprehension on line 57. *)
Definition product_of (item : PyVal) : M (gmap string PyVal) :=
  name ← py_get item "name" PyNone;
  itemId ← py_get item "itemId" PyNone;
  productUrl ← py_get item "productUrl" PyNone;
  ret ({[ "name" := name; "itemId" := itemId; "url" := productUrl ]} : gmap string PyVal).

Definition search_walmart_products (query : string) : M (list (gmap string PyVal)) :=
  W ← ask;
  access_token ← get_walmart_access_token;
  let url := items_url in
  let headers := search_headers W access_token in
  let params : gmap string string := {[ "query" := query ]} in
  response ← call (HttpGet url headers params);
  _ ← raise_for_status response;
  body ← json response;
  items ← py_get body "items" (PyList []);
  top ← py_slice1 items;
  mapM product_of top.

Definition add_to_walmart_cart (item_id : string) : M (gmap string PyVal) :=
  ret ({[ "item_id" := PyStr item_id;
          "status" := PyStr "Simulated addition to cart";
          "cart_url" := PyStr "https://www.walmart.com/cart" ]} : gmap string PyVal).

(** The LangChain tool of lines 74 to 78. *)
Record Tool : Type := mkTool {
  tool_name : string;
  tool_func : string -> M (list (gmap string PyVal));
  tool_description : string
}.

Definition walmart_tool : Tool :=
  {| tool_name := "WalmartCartTool";
     tool_func := fun query => search_walmart_products query;
     tool_description := "Searches Walmart.com for products and returns product details." |}.

(** ** Names (line 91 reads two names that nothing binds) *)

(** The names bound in the module's namespace once it is loaded: the
    interpreter's own, the imports of lines 1 to 13 and the assignments and
    function definitions that follow. *)
Definition module_globals : list string :=
  [ "__name__"; "__doc__"; "__package__"; "__loader__"; "__spec__";
    "__file__"; "__cached__"; "__builtins__";
    "ChatOpenAI"; "WebBaseLoader"; "RecursiveCharacterTextSplitter"; "Chroma";
    "PromptTemplate"; "RunnablePassthrough"; "StrOutputParser"; "Tool";
    "os"; "json"; "requests"; "load_dotenv"; "List"; "Dict";
    "client"; "WALMART_CLIENT_ID"; "WALMART_CLIENT_SECRET";
    "get_walmart_access_token"; "search_walmart_products";
    "add_to_walmart_cart"; "walmart_tool"; "initialize_vector_store";
    "generate_recipes" ].

(** The names of Python 3's [builtins] module. *)
Definition builtins : list string :=
  [ "abs"; "aiter"; "all"; "anext"; "any"; "ascii"; "bin"; "bool";
    "breakpoint"; "bytearray"; "bytes"; "callable"; "chr"; "classmethod";
    "compile"; "complex"; "copyright"; "credits"; "delattr"; "dict"; "dir";
    "divmod"; "enumerate"; "eval"; "exec"; "exit"; "filter"; "float";
    "format"; "frozenset"; "getattr"; "globals"; "hasattr"; "hash"; "help";
    "hex"; "id"; "input"; "int"; "isinstance"; "issubclass"; "iter"; "len";
    "license"; "list"; "locals"; "map"; "max"; "memoryview"; "min"; "next";
    "object"; "oct"; "open"; "ord"; "pow"; "print"; "property"; "quit";
    "range"; "repr"; "reversed"; "round"; "set"; "setattr"; "slice";
    "sorted"; "staticmethod"; "str"; "sum"; "super"; "tuple"; "type"; "vars";
    "zip"; "__import__"; "__build_class__"; "__debug__";
    "None"; "True"; "False"; "Ellipsis"; "NotImplemented";
    "ArithmeticError"; "AssertionError"; "AttributeError"; "BaseException";
    "BaseExceptionGroup"; "BlockingIOError"; "BrokenPipeError";
    "BufferError"; "BytesWarning"; "ChildProcessError";
    "ConnectionAbortedError"; "ConnectionError"; "ConnectionRefusedError";
    "ConnectionResetError"; "DeprecationWarning"; "EOFError";
    "EncodingWarning"; "EnvironmentError"; "Exception"; "ExceptionGroup";
    "FileExistsError"; "FileNotFoundError"; "FloatingPointError";
    "FutureWarning"; "GeneratorExit"; "IOError"; "ImportError";
    "ImportWarning"; "IndentationError"; "IndexError"; "InterruptedError";
    "IsADirectoryError"; "KeyError"; "KeyboardInterrupt"; "LookupError";
    "MemoryError"; "ModuleNotFoundError"; "NameError"; "NotADirectoryError";
    "NotImplementedError"; "OSError"; "OverflowError";
    "PendingDeprecationWarning"; "PermissionError"; "ProcessLookupError";
    "PythonFinalizationError"; "RecursionError"; "ReferenceError";
    "ResourceWarning"; "RuntimeError"; "RuntimeWarning";
    "StopAsyncIteration"; "StopIteration"; "SyntaxError"; "SyntaxWarning";
    "SystemError"; "SystemExit"; "TabError"; "TimeoutError"; "TypeError";
    "UnboundLocalError"; "UnicodeDecodeError"; "UnicodeEncodeError";
    "UnicodeError"; "UnicodeTranslateError"; "UnicodeWarning"; "UserWarning";
    "ValueError"; "Warning"; "ZeroDivisionError" ].

(** Reading a name that is not a local variable of the function: the
    module's globals, then the builtins, else [NameError]. *)
Definition load_name (name : string) : M PyObj :=
  if bool_decide (name ∈ module_globals ++ builtins)
  then ret (GlobalObj name)
  else raise (NameError name).

(** ** The document indexer (lines 80 to 96) *)

Definition recipe_urls : list string :=
  [ "https://www.allrecipes.com/recipes/";
    "https://www.bbcgoodfood.com/recipes" ].

(** A call with keyword arguments, unary [-] and binary [-] on objects: the object's
    class decides what happens, so each is a call to the outside. *)
Definition py_call (callee : PyObj) (kwargs : gmap string PyVal) : M PyObj :=
  _ ← call (ObjCall callee kwargs); ret (CallOf callee kwargs).

Definition py_neg (operand : PyObj) : M PyObj :=
  _ ← call (ObjNeg operand); ret (NegOf operand).

Definition py_sub (left right : PyObj) : M PyObj :=
  _ ← call (ObjSub left right); ret (SubOf left right).

(** The right-hand side of line 91.  Between [Recursive] and
    [CharacterTextSplitter(...)] the source has 21 minus signs: Python reads
    a subtraction whose left operand is the name [Recursive] and whose right
    operand is the call negated 20 times, and evaluates the left operand
    first. *)
Definition text_splitter_expr : M PyObj :=
  lhs ← load_name "Recursive";
  cls ← load_name "CharacterTextSplitter";
  inst ← py_call cls {[ "chunk_size" := PyInt 1000; "chunk_overlap" := PyInt 200 ]};
  rhs ← Nat.iter 20 (fun m => o ← m; py_neg o) (ret inst);
  py_sub lhs rhs.

Definition initialize_vector_store : M VectorStore :=
  let urls := recipe_urls in
  (* loader = WebBaseLoader(urls); documents = loader.load() *)
  documents ← call (PageLoad urls);
  text_splitter ← text_splitter_expr;
  chunks ← call (SplitDocuments text_splitter documents);
  _ ← call (LoadEmbeddings "all-MiniLM-L6-v2");
  let embeddings := {| model_name := "all-MiniLM-L6-v2" |} in
  _ ← call (BuildIndex chunks embeddings);
  let vector_store := {| indexed_chunks := chunks; embedding_function := embeddings |} in
  ret vector_store.

(** ** The generator (lines 98 to 158) *)

(** [s.split(",")] *)
Fixpoint split_on (sep : ascii) (s : string) : list string :=
  match s with
  | EmptyString => [EmptyString]
  | String c s' =>
      if Ascii.eqb c sep then EmptyString :: split_on sep s'
      else match split_on sep s' with
           | w :: ws => String c w :: ws
           | [] => [String c EmptyString]
           end
  end.

(** The characters [str.strip()] removes, among those below 128: tab to
    carriage return, the four separators 28 to 31, and the space. *)
Definition is_space (c : ascii) : bool :=
  let n := nat_of_ascii c in
  ((9 <=? n) && (n <=? 13) || (28 <=? n) && (n <=? 32))%nat.

Fixpoint lstrip (s : string) : string :=
  match s with
  | String c s' => if is_space c then lstrip s' else s
  | EmptyString => EmptyString
  end.

Definition rev_string (s : string) : string :=
  string_of_list_ascii (rev (list_ascii_of_string s)).

(** [s.strip()], exact on ASCII text. *)
Definition strip (s : string) : string :=
  rev_string (lstrip (rev_string (lstrip s))).

Definition lower_char (c : ascii) : ascii :=
  let n := nat_of_ascii c in
  if ((65 <=? n) && (n <=? 90))%nat then ascii_of_nat (n + 32) else c.

(** [s.lower()], exact on ASCII text. *)
Fixpoint lower (s : string) : string :=
  match s with
  | EmptyString => EmptyString
  | String c s' => String (lower_char c) (lower s')
  end.

(** The double quote and the line feed. *)
Definition dq : string := String (ascii_of_nat 34) EmptyString.
Definition nl : string := String (ascii_of_nat 10) EmptyString.

(** The template of lines 118 to 131, line by line (the dash of [3–5] is an
    en dash). *)
Definition prompt_text : string :=
  String.concat nl
    [ EmptyString;
      "You are a professional chef. Using the provided web recipe context, create 3–5 unique recipes for {num_people} people using these ingredients: {ingredients}.";
      "Ensure they adhere to these dietary restrictions: {dietary}.";
      "For each recipe, include a list of any additional ingredients not provided by the user.";
      "Return your answer as a JSON array where each item is an object with these keys:";
      dq +:+ "title" +:+ dq +:+ " (string),";
      dq +:+ "ingredients" +:+ dq +:+ " (list of strings),";
      dq +:+ "instructions" +:+ dq +:+ " (list of step-by-step instructions),";
      dq +:+ "missing_ingredients" +:+ dq +:+ " (list of strings, additional ingredients not in user input).";
      "Only output valid JSON. Do not include any extra text.";
      EmptyString;
      "Web recipe context:";
      "{context}";
      EmptyString ].

(** Lines 110 to 154, with the vector store in hand.  The text of the source
    stops on line 158, inside the [try] statement that would parse the
    reply, so the embedding ends with the reply of the chain. *)
Definition generate_recipes_rag (vector_store : VectorStore)
    (num_people : Z) (ingredients dietary : string) : M string :=
  W ← ask;
  let retriever :=
    {| vectorstore := vector_store; search_kwargs := {[ "k" := PyInt 3 ]} |} in
  let user_ingredients := (fun ing => lower (strip ing)) <$> split_on "," ingredients in
  let prompt_template :=
    {| input_variables := ["context"; "num_people"; "ingredients"; "dietary"];
       template := prompt_text |} in
  let rag_chain :=
    {| chain_inputs :=
         {[ "context" := RunRetriever retriever;
            "num_people" := RunPassthrough;
            "ingredients" := RunPassthrough;
            "dietary" := RunPassthrough ]};
       chain_prompt := prompt_template;
       chain_llm := client W |} in
  let query := "Recipes using " +:+ ingredients +:+ " for " +:+ dietary +:+ " diet" in
  response ← call (ChainInvoke rag_chain
                     {[ "num_people" := PyInt num_people;
                        "ingredients" := PyStr ingredients;
                        "dietary" := PyStr dietary;
                        "query" := PyStr query ]});
  ret response.

Definition generate_recipes (num_people : Z) (ingredients dietary : string) : M string :=
  vector_store ← initialize_vector_store;
  generate_recipes_rag vector_store num_people ingredients dietary.

(** ** Notions used in the statements *)

(** A status that [raise_for_status] lets through. *)
Definition passes (r : Response) : Prop := ¬ (400 <= status_code r < 600).

(** The request of the credential exchange. *)
Definition token_request (W : World) : Event :=
  HttpPost token_url token_headers (token_data W).

(** What the function makes of the answer to its request. *)
Definition token_of_answer (a : PyExn + Response) : PyExn + PyVal :=
  match a with
  | inl e => inl e
  | inr resp =>
      if bool_decide (400 <= status_code resp < 600)
      then inl (HTTPError (status_code resp))
      else match json_body resp with
           | None => inl JSONDecodeError
           | Some (PyDict d) => inr (default PyNone (d !! "access_token"))
           | Some _ => inl (AttributeError "get")
           end
  end.

(** The request to the catalog made with a given token. *)
Definition catalog_request (W : World) (access_token : PyVal) (query : string) : Event :=
  HttpGet items_url (search_headers W access_token) {[ "query" := query ]}.

(** A computation that makes no call to the outside. *)
Definition silent {A} (m : M A) : Prop := forall W t, log (m W t) = t.

(** ** Stubbed worlds *)

(** A world in which the token endpoint, the catalog, the page loader and
    the chain give fixed answers; the splitter hands back the pages, the
    other library calls succeed, and no environment variable is set. *)
Definition stub_respond (token catalog : PyExn + Response) (pages : list Document)
    (reply : RagChain -> string) (t : Trace) (e : Event) : PyExn + Answer e :=
  match e return PyExn + Answer e with
  | HttpPost _ _ _ => token
  | HttpGet _ _ _ => catalog
  | ObjCall _ _ | ObjNeg _ | ObjSub _ _ => inr tt
  | PageLoad _ => inr pages
  | SplitDocuments _ documents => inr documents
  | LoadEmbeddings _ | BuildIndex _ _ => inr tt
  | ChainInvoke chain _ => inr (reply chain)
  end.

Definition stub_world (token catalog : PyExn + Response) (pages : list Document)
    (reply : RagChain -> string) : World :=
  {| environ := fun _ => None;
     respond := stub_respond token catalog pages reply;
     repr_compound := fun _ => "<object>" |}.

Definition ok_json (body : gmap string PyVal) : PyExn + Response :=
  inr {| status_code := 200; json_body := Some (PyDict body) |}.

Definition status_only (code : Z) : PyExn + Response :=
  inr {| status_code := code; json_body := None |}.

(** [{"access_token": "T"}] *)
Definition token_T : PyExn + Response := ok_json {[ "access_token" := PyStr "T" ]}.

(** [{"token_type": "Bearer"}]: a success without the [access_token] field. *)
Definition token_missing : PyExn + Response := ok_json {[ "token_type" := PyStr "Bearer" ]}.

Definition item_roma : gmap string PyVal :=
  {[ "name" := PyStr "Roma tomatoes"; "itemId" := PyStr "42";
     "productUrl" := PyStr "https://www.walmart.com/ip/42" ]}.

Definition item_cherry : gmap string PyVal :=
  {[ "name" := PyStr "Cherry tomatoes"; "itemId" := PyStr "43";
     "productUrl" := PyStr "https://www.walmart.com/ip/43" ]}.

(** A catalog answer with two items. *)
Definition catalog_two : PyExn + Response :=
  ok_json {[ "items" := PyList [PyDict item_roma; PyDict item_cherry] ]}.

(** Two pages, the first of 1500 characters, the second of 300. *)
Definition two_pages : list Document :=
  [ {| page_content := string_of_list_ascii (repeat "a"%char 1500);
       source := "https://www.allrecipes.com/recipes/" |};
    {| page_content := string_of_list_ascii (repeat "b"%char 300);
       source := "https://www.bbcgoodfood.com/recipes" |} ].

(** A chain stub that answers with the template of its prompt, fields not
    filled in. *)
Definition echo (chain : RagChain) : string := template (chain_prompt chain).

Definition fixture : World := stub_world token_T catalog_two two_pages echo.

(** The exception with which the indexer stops: the page loader's own when
    it raises, the [NameError] of line 91 otherwise. *)
Definition indexer_failure (W : World) (t : Trace) : PyExn :=
  match respond W t (PageLoad recipe_urls) with
  | inl e => e
  | inr _ => NameError "Recursive"
  end.

(** The retriever and the chain that lines 110 to 145 build. *)
Definition retriever_of (vector_store : VectorStore) : Retriever :=
  {| vectorstore := vector_store; search_kwargs := {[ "k" := PyInt 3 ]} |}.

(** [needle in hay] *)
Definition occurs_in (needle hay : string) : bool :=
  match String.index 0 needle hay with
  | Some _ => true
  | None => false
  end.

(** ** Notions for the edge cases *)

(** Lines 56 to 59 once [items] is known: the loop over [items[:1]]. *)
Definition products_of_items (items : PyVal) : M (list (gmap string PyVal)) :=
  top ← py_slice1 items;
  mapM product_of top.

Definition is_dict (v : PyVal) : bool :=
  match v with
  | PyDict _ => true
  | _ => false
  end.

(** [None], booleans and numbers: values that cannot be indexed. *)
Definition not_subscriptable (v : PyVal) : bool :=
  match v with
  | PyNone | PyBool _ | PyInt _ | PyFloat _ => true
  | _ => false
  end.

(** A response with status 200 and the given decoded body. *)
Definition ok_value (v : PyVal) : PyExn + Response :=
  inr {| status_code := 200; json_body := Some v |}.

(** A transport failure of [requests]. *)
Definition refused : PyExn + Response := inl (ExternalError "ConnectionError").

(** ** The user's ingredient list *)

(** Line 113: [[ing.strip().lower() for ing in ingredients.split(",")]]. *)
Definition user_ingredients (ingredients : string) : list string :=
  (fun ing => lower (strip ing)) <$> split_on "," ingredients.

(** Text of characters below 128 only, on which [strip] and [lower] are
    exactly Python's. *)
Fixpoint is_ascii (s : string) : bool :=
  match s with
  | EmptyString => true
  | String c s' => (nat_of_ascii c <? 128)%nat && is_ascii s'
  end.

(** [s.count(c)] for a character [c]. *)
Fixpoint count_char (c : ascii) (s : string) : nat :=
  match s with
  | EmptyString => 0
  | String c' s' => (if Ascii.eqb c' c then 1 else 0) + count_char c s'
  end.

Definition starts_with_space (s : string) : bool :=
  match s with
  | String c _ => is_space c
  | EmptyString => false
  end.

(** No white space at either end. *)
Definition trimmed (s : string) : bool :=
  negb (starts_with_space s) && negb (starts_with_space (rev_string s)).

(** The letters [A] to [Z]. *)
Definition is_upper (c : ascii) : bool :=
  let n := nat_of_ascii c in
  ((65 <=? n) && (n <=? 90))%nat.

Fixpoint has_upper (s : string) : bool :=
  match s with
  | EmptyString => false
  | String c s' => is_upper c || has_upper s'
  end.

(** ** The chain at run time, behind stubs *)

(** Python's [repr] of a string, exact on ASCII text (a character from 128
    on is kept as it is, which is what [repr] does with printable text).
    The quote is double when the string has a single quote and no double
    quote, single otherwise; the backslash and the quote are escaped with a
    backslash, tab, line feed and carriage return are written as a backslash
    and a letter, the other control characters in hexadecimal. *)
Definition sq : ascii := "'"%char.
Definition dq_char : ascii := ascii_of_nat 34.
Definition backslash : ascii := "\"%char.

Definition hex_digit (n : nat) : ascii :=
  nth n (list_ascii_of_string "0123456789abcdef") "0"%char.

Definition hex2 (n : nat) : string :=
  String (hex_digit (n / 16)) (String (hex_digit (n mod 16)) EmptyString).

Definition repr_quote (s : string) : ascii :=
  if ((0 <? count_char sq s) && (count_char dq_char s =? 0))%nat
  then dq_char
  else sq.

Definition repr_char (quote c : ascii) : string :=
  let n := nat_of_ascii c in
  if Ascii.eqb c backslash || Ascii.eqb c quote
  then String backslash (String c EmptyString)
  else if (n =? 9)%nat then "\t"
  else if (n =? 10)%nat then "\n"
  else if (n =? 13)%nat then "\r"
  else if ((n <? 32) || (n =? 127))%nat then "\x" +:+ hex2 n
  else String c EmptyString.

Fixpoint repr_chars (quote : ascii) (s : string) : string :=
  match s with
  | EmptyString => EmptyString
  | String c s' => repr_char quote c +:+ repr_chars quote s'
  end.

Definition py_repr_str (s : string) : string :=
  let quote := repr_quote s in
  String quote (repr_chars quote s +:+ String quote EmptyString).

(** [repr(v)], as a container prints its elements; floats and nested
    containers are left to [compound]. *)
Definition py_repr (compound : PyVal -> string) (v : PyVal) : string :=
  match v with
  | PyNone => "None"
  | PyBool true => "True"
  | PyBool false => "False"
  | PyInt n => pretty n
  | PyStr s => py_repr_str s
  | PyFloat _ | PyList _ | PyDict _ => compound v
  end.

(** [str(d)] for a dictionary whose keys were inserted in the order
    [keys]. *)
Definition py_str_dict (compound : PyVal -> string) (keys : list string)
    (d : gmap string PyVal) : string :=
  "{" +:+ String.concat ", "
            (omap (fun k => (fun v => py_repr_str k +:+ ": " +:+ py_repr compound v)
                              <$> d !! k) keys)
      +:+ "}".

(** The keys of the dictionary given to [invoke], in the order of lines 150
    to 153. *)
Definition invoke_keys : list string :=
  ["num_people"; "ingredients"; "dietary"; "query"].

(** [template.format(...)] for a template whose fields are plain names in
    braces, as the one of line 118 is: [values] gives the text of each
    field.  [None] stands for the errors of [format] (a field without
    value, a brace without its partner) and for the templates with doubled
    braces, which are not modelled. *)
Fixpoint format_fields (values : string -> option string) (field : option string)
    (tpl : string) : option string :=
  match tpl with
  | EmptyString =>
      match field with
      | None => Some EmptyString
      | Some _ => None
      end
  | String c rest =>
      match field with
      | None =>
          if Ascii.eqb c "{" then format_fields values (Some EmptyString) rest
          else if Ascii.eqb c "}" then None
          else String c <$> format_fields values None rest
      | Some name =>
          if Ascii.eqb c "}" then
            match values name, format_fields values None rest with
            | Some v, Some r => Some (v +:+ r)
            | _, _ => None
            end
          else if Ascii.eqb c "{" then None
          else format_fields values (Some (name +:+ String c EmptyString)) rest
      end
  end.

(** The prompt that invoking the chain sends to the model, as LangChain
    computes it, when the retriever is a stub whose result prints as
    [context].  The first stage runs every step on the whole input: the
    retriever gives the context, and [RunnablePassthrough()] gives back the
    input itself, the whole dictionary.  The prompt template then replaces
    each of its input variables by [str] of the value of that key. *)
Definition chain_prompt_text (compound : PyVal -> string) (context : string)
    (chain : RagChain) (input : gmap string PyVal) : option string :=
  let value (name : string) : option string :=
    if bool_decide (name ∈ input_variables (chain_prompt chain)) then
      match chain_inputs chain !! name with
      | Some (RunRetriever _) => Some context
      | Some RunPassthrough => Some (py_str_dict compound invoke_keys input)
      | None => None
      end
    else None in
  format_fields value None (template (chain_prompt chain)).

(** A world for the generator alone: the retriever is a stub that returns
    [context], the model a stub that returns the prompt it receives. *)
Definition rag_stub_respond (context : string) (t : Trace) (e : Event)
    : PyExn + Answer e :=
  match e return PyExn + Answer e with
  | HttpPost _ _ _ | HttpGet _ _ _ => refused
  | ObjCall _ _ | ObjNeg _ | ObjSub _ _ => inr tt
  | PageLoad _ => inr two_pages
  | SplitDocuments _ documents => inr documents
  | LoadEmbeddings _ | BuildIndex _ _ => inr tt
  | ChainInvoke chain input =>
      match chain_prompt_text (fun _ => "<object>") context chain input with
      | Some prompt => inr prompt
      | None => inl (ExternalError "KeyError")
      end
  end.

Definition rag_stub_world (context : string) : World :=
  {| environ := fun _ => None;
     respond := rag_stub_respond context;
     repr_compound := fun _ => "<object>" |}.

(** A vector store handed to the generator in place of the indexer's. *)
Definition stub_store : VectorStore :=
  {| indexed_chunks := two_pages;
     embedding_function := {| model_name := "all-MiniLM-L6-v2" |} |}.
(** * Properties *)

(** ** Running computations *)

Ltac run_monad :=
  unfold mbind, M_bind, bind, mret, M_ret, ret, raise, ask, call in *; simpl in *.

Lemma run_bind {A B} (m : M A) (k : A -> M B) (W : World) (t : Trace) :
  (m ≫= k) W t =
    match m W t with
    | (inl e, t') => (inl e, t')
    | (inr a, t') => k a W t'
    end.
Proof. reflexivity. Qed.

Lemma run_call (e : Event) (W : World) (t : Trace) :
  call e W t = (respond W t e, t ++ [e]).
Proof. reflexivity. Qed.

Lemma raise_for_status_passes (r : Response) (W : World) (t : Trace) :
  passes r -> raise_for_status r W t = (inr tt, t).
Proof.
  intros Hok. unfold raise_for_status.
  rewrite bool_decide_eq_false_2 by exact Hok. reflexivity.
Qed.

Lemma raise_for_status_error (r : Response) (W : World) (t : Trace) :
  400 <= status_code r < 600 ->
  raise_for_status r W t = (inl (HTTPError (status_code r)), t).
Proof.
  intros Herr. unfold raise_for_status.
  rewrite bool_decide_eq_true_2 by exact Herr. reflexivity.
Qed.

Lemma silent_ret {A} (a : A) : silent (ret a).
Proof. intros W t. reflexivity. Qed.

Lemma silent_raise {A} (e : PyExn) : silent (@raise A e).
Proof. intros W t. reflexivity. Qed.

Lemma silent_bind {A B} (m : M A) (k : A -> M B) :
  silent m -> (forall a, silent (k a)) -> silent (m ≫= k).
Proof.
  intros Hm Hk W t. rewrite run_bind.
  specialize (Hm W t). unfold log in *.
  destruct (m W t) as [[e | a] t']; simpl in *; subst t'; [reflexivity |].
  apply Hk.
Qed.

Lemma silent_py_get (v : PyVal) (key : string) (dflt : PyVal) :
  silent (py_get v key dflt).
Proof. destruct v; first [apply silent_ret | apply silent_raise]. Qed.

Lemma silent_py_slice1 (v : PyVal) : silent (py_slice1 v).
Proof. destruct v; first [apply silent_ret | apply silent_raise]. Qed.

Lemma silent_json (r : Response) : silent (json r).
Proof.
  unfold json. destruct (json_body r); [apply silent_ret | apply silent_raise].
Qed.

Lemma silent_raise_for_status (r : Response) : silent (raise_for_status r).
Proof.
  unfold raise_for_status.
  destruct (bool_decide _); [apply silent_raise | apply silent_ret].
Qed.

Lemma silent_product_of (item : PyVal) : silent (product_of item).
Proof.
  unfold product_of.
  repeat (apply silent_bind; [apply silent_py_get | intros ?]).
  apply silent_ret.
Qed.

Lemma silent_mapM {A B} (f : A -> M B) (l : list A) :
  (forall a, silent (f a)) -> silent (mapM f l).
Proof.
  intros Hf. induction l as [| a l IH]; simpl.
  - apply silent_ret.
  - apply silent_bind; [apply Hf | intros b].
    apply silent_bind; [apply IH | intros bs]. apply silent_ret.
Qed.

(** ** The credential exchange *)

Lemma get_walmart_access_token_run (W : World) (t : Trace) :
  get_walmart_access_token W t =
    (token_of_answer (respond W t (token_request W)), t ++ [token_request W]).
Proof.
  unfold get_walmart_access_token, token_request, token_of_answer.
  run_monad.
  destruct (respond W t _) as [e | resp]; [reflexivity |].
  unfold raise_for_status.
  destruct (bool_decide (400 <= status_code resp < 600)); [reflexivity |].
  unfold json. destruct (json_body resp) as [[] |]; reflexivity.
Qed.

(** C3.  On a status that is not a client or server error,
    [get_walmart_access_token] returns the string held by the
    [access_token] field of the JSON body of the token endpoint's response;
    on a status 400 to 599 it raises [HTTPError] and returns no token. *)
Theorem get_walmart_access_token_spec (W : World) (t : Trace) (resp : Response) :
  respond W t (token_request W) = inr resp ->
  (forall (d : gmap string PyVal) (T : string),
      passes resp ->
      json_body resp = Some (PyDict d) ->
      d !! "access_token" = Some (PyStr T) ->
      outcome (get_walmart_access_token W t) = inr (PyStr T))
  /\ (400 <= status_code resp < 600 ->
      outcome (get_walmart_access_token W t) = inl (HTTPError (status_code resp))).
Proof.
  intros Hresp. rewrite get_walmart_access_token_run, Hresp.
  unfold outcome, token_of_answer; simpl. split.
  - intros d T Hok Hbody Hfield.
    rewrite bool_decide_eq_false_2 by exact Hok.
    rewrite Hbody, Hfield. reflexivity.
  - intros Herr. rewrite bool_decide_eq_true_2 by exact Herr. reflexivity.
Qed.

Lemma get_walmart_access_token_spec_witness :
  outcome (get_walmart_access_token (stub_world token_T catalog_two [] echo) [])
    = inr (PyStr "T")
  /\ outcome (get_walmart_access_token
                (stub_world (status_only 401) catalog_two [] echo) [])
    = inl (HTTPError 401)
  /\ outcome (get_walmart_access_token
                (stub_world (status_only 503) catalog_two [] echo) [])
    = inl (HTTPError 503).
Proof.
  split; [| split].
  - eapply (get_walmart_access_token_spec (stub_world token_T catalog_two [] echo) []).
    + reflexivity.
    + unfold passes; simpl; lia.
    + reflexivity.
    + reflexivity.
  - eapply (get_walmart_access_token_spec
              (stub_world (status_only 401) catalog_two [] echo) []
              {| status_code := 401; json_body := None |}).
    + reflexivity.
    + simpl; lia.
  - eapply (get_walmart_access_token_spec
              (stub_world (status_only 503) catalog_two [] echo) []
              {| status_code := 503; json_body := None |}).
    + reflexivity.
    + simpl; lia.
Defined.

(** ** The cart simulator *)

(** C1.  For every item id [X], in every world and after every history,
    [add_to_walmart_cart X] returns a dictionary whose entries are exactly
    [item_id] bound to [X], [status] bound to the simulation notice and
    [cart_url] bound to the cart's address; it makes no call to the outside
    (the log is unchanged) and it cannot raise. *)
Theorem add_to_walmart_cart_exact (X : string) (W : World) (t : Trace) :
  exists d : gmap string PyVal,
    add_to_walmart_cart X W t = (inr d, t)
    /\ map_to_list d ≡ₚ
         [ ("item_id", PyStr X);
           ("status", PyStr "Simulated addition to cart");
           ("cart_url", PyStr "https://www.walmart.com/cart") ].
Proof.
  eexists. split; [reflexivity |].
  rewrite map_to_list_insert by reflexivity.
  apply Permutation_cons; [reflexivity |].
  rewrite map_to_list_insert by reflexivity.
  apply Permutation_cons; [reflexivity |].
  rewrite map_to_list_singleton. reflexivity.
Qed.

(** ** The product search *)

(** Lines 54 to 59: what the function does with the catalog's response. *)
Lemma silent_search_tail (response : Response) :
  silent (_ ← raise_for_status response;
          body ← json response;
          items ← py_get body "items" (PyList []);
          top ← py_slice1 items;
          mapM product_of top).
Proof.
  apply silent_bind; [apply silent_raise_for_status | intros _].
  apply silent_bind; [apply silent_json | intros body].
  apply silent_bind; [apply silent_py_get | intros items].
  apply silent_bind; [apply silent_py_slice1 | intros top].
  apply silent_mapM, silent_product_of.
Qed.

Lemma search_after_token_failure (W : World) (t t1 : Trace) (query : string) (e : PyExn) :
  get_walmart_access_token W t = (inl e, t1) ->
  search_walmart_products query W t = (inl e, t1).
Proof.
  intros Htok. unfold search_walmart_products. run_monad.
  rewrite Htok. reflexivity.
Qed.

Lemma search_after_token (W : World) (t t1 : Trace) (query : string) (tok : PyVal) :
  get_walmart_access_token W t = (inr tok, t1) ->
  search_walmart_products query W t =
    match respond W t1 (catalog_request W tok query) with
    | inl e => (inl e, t1 ++ [catalog_request W tok query])
    | inr response =>
        (_ ← raise_for_status response;
         body ← json response;
         items ← py_get body "items" (PyList []);
         top ← py_slice1 items;
         mapM product_of top) W (t1 ++ [catalog_request W tok query])
    end.
Proof.
  intros Htok. unfold search_walmart_products. run_monad.
  rewrite Htok. unfold catalog_request.
  destruct (respond W t1 _); reflexivity.
Qed.

Lemma search_log_after_token (W : World) (t t1 : Trace) (query : string) (tok : PyVal) :
  get_walmart_access_token W t = (inr tok, t1) ->
  log (search_walmart_products query W t) = t1 ++ [catalog_request W tok query].
Proof.
  intros Htok. rewrite (search_after_token _ _ _ _ _ Htok).
  destruct (respond W t1 _) as [e | response]; [reflexivity |].
  apply silent_search_tail.
Qed.

Lemma search_log_starts_with_token (W : World) (t : Trace) (query : string) :
  exists rest, log (search_walmart_products query W t) = t ++ token_request W :: rest.
Proof.
  pose proof (get_walmart_access_token_run W t) as Hrun.
  destruct (token_of_answer _) as [e | tok].
  - exists []. rewrite (search_after_token_failure _ _ _ _ _ Hrun). reflexivity.
  - exists [catalog_request W tok query].
    rewrite (search_log_after_token _ _ _ _ _ Hrun).
    rewrite <- app_assoc. reflexivity.
Qed.

(** An item that is not an object has no [get]: the comprehension raises. *)
Example product_of_non_object (W : World) (t : Trace) :
  product_of (PyStr "Roma tomatoes") W t = (inl (AttributeError "get"), t).
Proof. reflexivity. Qed.

(** C2.  When the token exchange has succeeded and the catalog answers with
    a passing status and a JSON object whose [items] list starts with an
    object, whatever follows it in the list, [search_walmart_products]
    returns a list of exactly one dictionary, whose [name], [itemId] and
    [url] are that first item's [name], [itemId] and [productUrl]. *)
Theorem search_returns_first_item (W : World) (t t1 : Trace) (query : string)
    (tok : PyVal) (resp : Response) (body item : gmap string PyVal)
    (rest : list PyVal) :
  get_walmart_access_token W t = (inr tok, t1) ->
  respond W t1 (catalog_request W tok query) = inr resp ->
  passes resp ->
  json_body resp = Some (PyDict body) ->
  body !! "items" = Some (PyList (PyDict item :: rest)) ->
  outcome (search_walmart_products query W t) =
    inr [ {[ "name" := default PyNone (item !! "name");
             "itemId" := default PyNone (item !! "itemId");
             "url" := default PyNone (item !! "productUrl") ]} ].
Proof.
  intros Htok Hresp Hok Hbody Hitems.
  rewrite (search_after_token _ _ _ _ _ Htok), Hresp.
  rewrite run_bind, (raise_for_status_passes _ _ _ Hok).
  rewrite run_bind. unfold json. rewrite Hbody.
  run_monad. rewrite Hitems. reflexivity.
Qed.

Lemma search_returns_first_item_witness :
  outcome (search_walmart_products "tomatoes" fixture []) =
    inr [ {[ "name" := PyStr "Roma tomatoes";
             "itemId" := PyStr "42";
             "url" := PyStr "https://www.walmart.com/ip/42" ]} ].
Proof.
  apply (search_returns_first_item fixture [] [token_request fixture] "tomatoes"
           (PyStr "T")
           {| status_code := 200;
              json_body := Some (PyDict {[ "items" := PyList [PyDict item_roma; PyDict item_cherry] ]}) |}
           {[ "items" := PyList [PyDict item_roma; PyDict item_cherry] ]}
           item_roma [PyDict item_cherry]).
  - reflexivity.
  - reflexivity.
  - unfold passes; simpl; lia.
  - reflexivity.
  - reflexivity.
Defined.

(** C6.  Every run of [search_walmart_products], after any history, starts
    with the request to the token endpoint and sends the catalog the token
    this request returned; a second search repeats the exchange.  When the
    token retrieval raises, the search raises the same exception without
    calling the catalog; when the catalog call raises or answers with a
    status 400 to 599, the search raises.  In each case no list is
    returned. *)
Theorem search_fetches_token_every_call (W : World) (t : Trace) (query : string) :
  (exists rest,
      log (search_walmart_products query W t) = t ++ token_request W :: rest)
  /\ (forall e t1,
        get_walmart_access_token W t = (inl e, t1) ->
        search_walmart_products query W t = (inl e, t1))
  /\ (forall tok t1,
        get_walmart_access_token W t = (inr tok, t1) ->
        log (search_walmart_products query W t) = t1 ++ [catalog_request W tok query]
        /\ (forall e,
              respond W t1 (catalog_request W tok query) = inl e ->
              outcome (search_walmart_products query W t) = inl e)
        /\ (forall resp,
              respond W t1 (catalog_request W tok query) = inr resp ->
              400 <= status_code resp < 600 ->
              outcome (search_walmart_products query W t)
                = inl (HTTPError (status_code resp))))
  /\ (forall query' found t1,
        search_walmart_products query W t = (inr found, t1) ->
        exists rest,
          log ((search_walmart_products query ≫= fun _ => search_walmart_products query') W t)
            = t1 ++ token_request W :: rest).
Proof.
  split; [apply search_log_starts_with_token |].
  split; [intros e t1; apply search_after_token_failure |].
  split.
  - intros tok t1 Htok. split; [apply search_log_after_token; exact Htok |].
    rewrite (search_after_token _ _ _ _ _ Htok). split.
    + intros e He. rewrite He. reflexivity.
    + intros resp Hresp Herr. rewrite Hresp.
      rewrite run_bind, (raise_for_status_error _ _ _ Herr). reflexivity.
  - intros query' found t1 Hfirst.
    rewrite run_bind, Hfirst. apply search_log_starts_with_token.
Qed.

Lemma search_fetches_token_every_call_witness :
  search_walmart_products "tomatoes"
    (stub_world (status_only 401) catalog_two [] echo) []
    = (inl (HTTPError 401),
       [token_request (stub_world (status_only 401) catalog_two [] echo)])
  /\ outcome (search_walmart_products "tomatoes"
                (stub_world token_T (status_only 500) [] echo) [])
     = inl (HTTPError 500)
  /\ exists rest,
       log ((search_walmart_products "tomatoes"
               ≫= fun _ => search_walmart_products "pasta") fixture [])
       = [token_request fixture; catalog_request fixture (PyStr "T") "tomatoes"]
           ++ token_request fixture :: rest.
Proof.
  split; [| split].
  - apply (search_fetches_token_every_call
             (stub_world (status_only 401) catalog_two [] echo) [] "tomatoes").
    reflexivity.
  - destruct (search_fetches_token_every_call
                (stub_world token_T (status_only 500) [] echo) [] "tomatoes")
      as (_ & _ & Hcat & _).
    destruct (Hcat (PyStr "T") [token_request (stub_world token_T (status_only 500) [] echo)])
      as (_ & _ & Hstatus); [reflexivity |].
    apply (Hstatus {| status_code := 500; json_body := None |}).
    + reflexivity.
    + simpl; lia.
  - destruct (search_fetches_token_every_call fixture [] "tomatoes")
      as (_ & _ & _ & Htwice).
    apply (Htwice "pasta" [ {[ "name" := PyStr "Roma tomatoes";
                               "itemId" := PyStr "42";
                               "url" := PyStr "https://www.walmart.com/ip/42" ]} ]).
    reflexivity.
Defined.

(** C10.  When the token endpoint answers with a passing status and a JSON
    object without the [access_token] field, [get_walmart_access_token]
    returns [None] and does not raise, and a search that follows sends the
    catalog request with the header [Authorization: Bearer None]. *)
Theorem missing_access_token_is_None (W : World) (t : Trace) (resp : Response)
    (d : gmap string PyVal) (query : string) :
  respond W t (token_request W) = inr resp ->
  passes resp ->
  json_body resp = Some (PyDict d) ->
  d !! "access_token" = None ->
  get_walmart_access_token W t = (inr PyNone, t ++ [token_request W])
  /\ log (search_walmart_products query W t)
     = t ++ [token_request W;
             HttpGet items_url (search_headers W PyNone) {[ "query" := query ]}]
  /\ search_headers W PyNone !! "Authorization" = Some "Bearer None".
Proof.
  intros Hresp Hok Hbody Hfield.
  assert (get_walmart_access_token W t = (inr PyNone, t ++ [token_request W])) as Htok.
  { rewrite get_walmart_access_token_run, Hresp. unfold token_of_answer.
    rewrite bool_decide_eq_false_2 by exact Hok.
    rewrite Hbody, Hfield. reflexivity. }
  split; [exact Htok |]. split.
  - rewrite (search_log_after_token _ _ _ _ _ Htok), <- app_assoc. reflexivity.
  - reflexivity.
Qed.

Lemma missing_access_token_is_None_witness :
  get_walmart_access_token (stub_world token_missing catalog_two [] echo) []
    = (inr PyNone, [token_request (stub_world token_missing catalog_two [] echo)])
  /\ log (search_walmart_products "tomatoes"
            (stub_world token_missing catalog_two [] echo) [])
     = [token_request (stub_world token_missing catalog_two [] echo);
        HttpGet items_url
          (search_headers (stub_world token_missing catalog_two [] echo) PyNone)
          {[ "query" := "tomatoes" ]}]
  /\ search_headers (stub_world token_missing catalog_two [] echo) PyNone
       !! "Authorization" = Some "Bearer None".
Proof.
  apply (missing_access_token_is_None
           (stub_world token_missing catalog_two [] echo) []
           {| status_code := 200;
              json_body := Some (PyDict {[ "token_type" := PyStr "Bearer" ]}) |}
           {[ "token_type" := PyStr "Bearer" ]} "tomatoes").
  - reflexivity.
  - unfold passes; simpl; lia.
  - reflexivity.
  - reflexivity.
Defined.

(** ** The document indexer *)

Lemma load_name_Recursive (W : World) (t : Trace) :
  load_name "Recursive" W t = (inl (NameError "Recursive"), t).
Proof. reflexivity. Qed.

Lemma text_splitter_expr_raises (W : World) (t : Trace) :
  text_splitter_expr W t = (inl (NameError "Recursive"), t).
Proof.
  unfold text_splitter_expr. rewrite run_bind, load_name_Recursive. reflexivity.
Qed.

Lemma initialize_vector_store_run (W : World) (t : Trace) :
  initialize_vector_store W t =
    (inl (indexer_failure W t), t ++ [PageLoad recipe_urls]).
Proof.
  unfold initialize_vector_store, indexer_failure.
  rewrite run_bind, run_call.
  destruct (respond W t (PageLoad recipe_urls)) as [e | documents]; [reflexivity |].
  rewrite run_bind, text_splitter_expr_raises. reflexivity.
Qed.

Lemma generate_recipes_run (W : World) (t : Trace) (num_people : Z)
    (ingredients dietary : string) :
  generate_recipes num_people ingredients dietary W t =
    (inl (indexer_failure W t), t ++ [PageLoad recipe_urls]).
Proof.
  unfold generate_recipes. rewrite run_bind, initialize_vector_store_run.
  reflexivity.
Qed.

(** Line 113 on the ingredient string of the end-to-end scenario. *)
Example user_ingredients_example :
  (fun ing => lower (strip ing)) <$> split_on "," "Tomatoes, pasta "
    = ["tomatoes"; "pasta"].
Proof. reflexivity. Qed.

(** Lines 110 to 154 make one call, to the chain. *)
Lemma generate_recipes_rag_run (vector_store : VectorStore) (num_people : Z)
    (ingredients dietary : string) (W : World) (t : Trace) :
  exists chain input,
    generate_recipes_rag vector_store num_people ingredients dietary W t
      = (respond W t (ChainInvoke chain input), t ++ [ChainInvoke chain input])
    /\ chain_inputs chain !! "context" = Some (RunRetriever (retriever_of vector_store))
    /\ template (chain_prompt chain) = prompt_text
    /\ input !! "ingredients" = Some (PyStr ingredients)
    /\ input !! "dietary" = Some (PyStr dietary).
Proof.
  unfold generate_recipes_rag. run_monad.
  match goal with
  | |- context [respond W t (ChainInvoke ?c ?i)] => exists c, i
  end.
  split; [destruct (respond W t _); reflexivity |].
  repeat split; reflexivity.
Qed.

(** C4.  In every world and after every history, the right-hand side of the
    splitter line raises [NameError] for the name [Recursive];
    [initialize_vector_store] raises (the page loader's exception, or else
    that [NameError]) having called nothing but the page loader, so nothing
    is split, embedded or indexed; and [generate_recipes], on every input,
    raises the same exception with the same log, so the chain (retrieval,
    prompt, model) is never invoked. *)
Theorem indexer_always_raises (W : World) (t : Trace) :
  text_splitter_expr W t = (inl (NameError "Recursive"), t)
  /\ initialize_vector_store W t
     = (inl (indexer_failure W t), t ++ [PageLoad recipe_urls])
  /\ forall (num_people : Z) (ingredients dietary : string),
       generate_recipes num_people ingredients dietary W t
       = (inl (indexer_failure W t), t ++ [PageLoad recipe_urls]).
Proof.
  split; [apply text_splitter_expr_raises |].
  split; [apply initialize_vector_store_run |].
  intros. apply generate_recipes_run.
Qed.

(** C5.  With the page loader returning two pages, the first of 1500
    characters, [initialize_vector_store] raises [NameError] on the splitter
    line: the only call it has made is the page load, the splitter is never
    asked for chunks. *)
Theorem indexer_splits_nothing :
  (String.length <$> (page_content <$> two_pages)) = [1500%nat; 300%nat]
  /\ initialize_vector_store fixture []
     = (inl (NameError "Recursive"), [PageLoad recipe_urls]).
Proof.
  split; [vm_compute; reflexivity |].
  rewrite initialize_vector_store_run. reflexivity.
Qed.

(** ** The generator *)

(** C7.  On every input, in every world, [generate_recipes] stops in the
    indexer: its log gains the page load and no chain invocation, so no
    retriever is ever asked for chunks.  The code it does not reach would
    hand the chain a retriever with [k] set to 3. *)
Theorem generate_recipes_never_retrieves (W : World) (t : Trace)
    (num_people : Z) (ingredients dietary : string) :
  log (generate_recipes num_people ingredients dietary W t)
    = t ++ [PageLoad recipe_urls]
  /\ forall vector_store : VectorStore,
       exists chain input,
         log (generate_recipes_rag vector_store num_people ingredients dietary W t)
           = t ++ [ChainInvoke chain input]
         /\ chain_inputs chain !! "context"
            = Some (RunRetriever (retriever_of vector_store))
         /\ search_kwargs (retriever_of vector_store) !! "k" = Some (PyInt 3).
Proof.
  split; [rewrite generate_recipes_run; reflexivity |].
  intros vector_store.
  destruct (generate_recipes_rag_run vector_store num_people ingredients dietary W t)
    as (chain & input & Hrun & Hctx & _).
  exists chain, input. rewrite Hrun.
  split; [reflexivity |]. split; [exact Hctx | reflexivity].
Qed.

(** C8.  With the retriever stubbed by a fixed context and the model by an
    echo, the prompt that lines 110 to 154 of [generate_recipes] send for
    the ingredient string made of [tomatoes], a line feed and [pasta] does
    not contain that string.  Each of the fields [{num_people}],
    [{ingredients}] and [{dietary}] is replaced by the text of the whole
    dictionary given to [invoke], because its step is a passthrough, and in
    that text the line feed is written as a backslash and the letter [n].
    The dietary string is contained, and so is an ingredient string that
    [repr] leaves as it is, such as [tomatoes, pasta]. *)
Theorem rendered_prompt_escapes_ingredients :
  exists prompt plain_prompt : string,
    outcome (generate_recipes_rag stub_store 4 ("tomatoes" +:+ nl +:+ "pasta")
               "vegetarian" (rag_stub_world "fixed context") [])
      = inr prompt
    /\ occurs_in ("tomatoes" +:+ nl +:+ "pasta") prompt = false
    /\ occurs_in
         "using these ingredients: {'num_people': 4, 'ingredients': 'tomatoes\npasta', 'dietary': 'vegetarian', 'query': "
         prompt = true
    /\ occurs_in "vegetarian" prompt = true
    /\ outcome (generate_recipes_rag stub_store 4 "tomatoes, pasta"
                  "vegetarian" (rag_stub_world "fixed context") [])
       = inr plain_prompt
    /\ occurs_in "tomatoes, pasta" plain_prompt = true.
Proof.
  eexists _, _.
  split; [vm_compute; reflexivity |].
  split; [vm_compute; reflexivity |].
  split; [vm_compute; reflexivity |].
  split; [vm_compute; reflexivity |].
  split; [vm_compute; reflexivity |].
  vm_compute; reflexivity.
Qed.

(** C9.  The end-to-end call with 4 people, ["tomatoes, pasta"] and
    ["vegetarian"] returns nothing in any world: it raises in the indexer,
    after the page load, and produces no recipe. *)
Theorem end_to_end_call_raises (W : World) (t : Trace) :
  generate_recipes 4 "tomatoes, pasta" "vegetarian" W t
    = (inl (indexer_failure W t), t ++ [PageLoad recipe_urls])
  /\ generate_recipes 4 "tomatoes, pasta" "vegetarian" fixture []
     = (inl (NameError "Recursive"), [PageLoad recipe_urls]).
Proof.
  split; [apply generate_recipes_run |].
  rewrite generate_recipes_run. reflexivity.
Qed.

(** * Further properties of the retailer functions *)

(** ** [get_walmart_access_token] beyond the expected answer *)

(** X1.  Whatever the token endpoint does, [get_walmart_access_token] makes
    exactly one request, the POST to the token endpoint: it never retries.
    An exception raised by the request itself propagates unchanged. *)
Theorem token_exchange_single_request (W : World) (t : Trace) :
  log (get_walmart_access_token W t) = t ++ [token_request W]
  /\ forall e : PyExn,
       respond W t (token_request W) = inl e ->
       outcome (get_walmart_access_token W t) = inl e.
Proof.
  rewrite get_walmart_access_token_run. split; [reflexivity |].
  intros e He. rewrite He. reflexivity.
Qed.

Lemma token_exchange_single_request_witness :
  get_walmart_access_token (stub_world refused catalog_two [] echo) []
    = (inl (ExternalError "ConnectionError"),
       [token_request (stub_world refused catalog_two [] echo)]).
Proof.
  destruct (token_exchange_single_request (stub_world refused catalog_two [] echo) [])
    as [Hlog Hexn].
  specialize (Hexn (ExternalError "ConnectionError") eq_refl).
  unfold log, outcome in *.
  destruct (get_walmart_access_token _ _) as [o l]; simpl in *.
  rewrite Hlog, Hexn. reflexivity.
Defined.

(** X2.  On a passing status, a token response whose body is not valid JSON
    makes the function raise [JSONDecodeError], and a body that is valid
    JSON but not an object (a list, a string, a number, [null]) makes it
    raise [AttributeError]: neither yields a token. *)
Theorem token_exchange_malformed_body (W : World) (t : Trace) (resp : Response) :
  respond W t (token_request W) = inr resp ->
  passes resp ->
  (json_body resp = None ->
   outcome (get_walmart_access_token W t) = inl JSONDecodeError)
  /\ (forall v : PyVal,
        json_body resp = Some v ->
        is_dict v = false ->
        outcome (get_walmart_access_token W t) = inl (AttributeError "get")).
Proof.
  intros Hresp Hok. rewrite get_walmart_access_token_run, Hresp.
  unfold outcome, token_of_answer; simpl.
  rewrite bool_decide_eq_false_2 by exact Hok. split.
  - intros Hbody. rewrite Hbody. reflexivity.
  - intros v Hbody Hv. rewrite Hbody. destruct v; try reflexivity. discriminate.
Qed.

Lemma token_exchange_malformed_body_witness :
  outcome (get_walmart_access_token (stub_world (status_only 200) catalog_two [] echo) [])
    = inl JSONDecodeError
  /\ outcome (get_walmart_access_token
                (stub_world (ok_value (PyList [PyStr "T"])) catalog_two [] echo) [])
     = inl (AttributeError "get").
Proof.
  split.
  - apply (token_exchange_malformed_body
             (stub_world (status_only 200) catalog_two [] echo) []
             {| status_code := 200; json_body := None |}).
    + reflexivity.
    + unfold passes; simpl; lia.
    + reflexivity.
  - apply (token_exchange_malformed_body
             (stub_world (ok_value (PyList [PyStr "T"])) catalog_two [] echo) []
             {| status_code := 200; json_body := Some (PyList [PyStr "T"]) |})
      with (v := PyList [PyStr "T"]).
    + reflexivity.
    + unfold passes; simpl; lia.
    + reflexivity.
    + reflexivity.
Defined.

(** X3.  The function does not check the type of the [access_token] field:
    whatever JSON value the field holds (a number, a list, [null]) is
    returned as it is, in spite of the [-> str] annotation. *)
Theorem token_exchange_unchecked_type (W : World) (t : Trace) (resp : Response)
    (d : gmap string PyVal) (v : PyVal) :
  respond W t (token_request W) = inr resp ->
  passes resp ->
  json_body resp = Some (PyDict d) ->
  d !! "access_token" = Some v ->
  get_walmart_access_token W t = (inr v, t ++ [token_request W]).
Proof.
  intros Hresp Hok Hbody Hfield.
  rewrite get_walmart_access_token_run, Hresp. unfold token_of_answer.
  rewrite bool_decide_eq_false_2 by exact Hok.
  rewrite Hbody, Hfield. reflexivity.
Qed.

Lemma token_exchange_unchecked_type_witness :
  outcome (get_walmart_access_token
             (stub_world (ok_value (PyDict {[ "access_token" := PyInt 123 ]}))
                catalog_two [] echo) [])
    = inr (PyInt 123).
Proof.
  unfold outcome.
  rewrite (token_exchange_unchecked_type
             (stub_world (ok_value (PyDict {[ "access_token" := PyInt 123 ]}))
                catalog_two [] echo) []
             {| status_code := 200;
                json_body := Some (PyDict {[ "access_token" := PyInt 123 ]}) |}
             {[ "access_token" := PyInt 123 ]} (PyInt 123)).
  - reflexivity.
  - reflexivity.
  - unfold passes; simpl; lia.
  - reflexivity.
  - reflexivity.
Defined.

(** X4.  When neither [WALMART_CLIENT_ID] nor [WALMART_CLIENT_SECRET] is set
    in the environment, the function does not stop: it still sends the
    request, with [None] for both credentials. *)
Theorem token_exchange_without_credentials (W : World) (t : Trace) :
  environ W "WALMART_CLIENT_ID" = None ->
  environ W "WALMART_CLIENT_SECRET" = None ->
  log (get_walmart_access_token W t)
    = t ++ [HttpPost token_url token_headers
              {[ "grant_type" := PyStr "client_credentials";
                 "client_id" := PyNone;
                 "client_secret" := PyNone ]}].
Proof.
  intros Hid Hsecret. rewrite get_walmart_access_token_run.
  unfold log, token_request, token_data, WALMART_CLIENT_ID, WALMART_CLIENT_SECRET, getenv.
  rewrite Hid, Hsecret. reflexivity.
Qed.

Lemma token_exchange_without_credentials_witness :
  log (get_walmart_access_token fixture [])
    = [HttpPost token_url token_headers
         {[ "grant_type" := PyStr "client_credentials";
            "client_id" := PyNone;
            "client_secret" := PyNone ]}].
Proof.
  apply (token_exchange_without_credentials fixture []); reflexivity.
Defined.

(** ** [search_walmart_products] beyond the expected answer *)

(** Once the token is there and the catalog has answered with a passing
    status and a JSON object, the result is that of the loop over
    [items[:1]]. *)
Lemma search_with_body (W : World) (t t1 : Trace) (query : string) (tok : PyVal)
    (resp : Response) (body : gmap string PyVal) :
  get_walmart_access_token W t = (inr tok, t1) ->
  respond W t1 (catalog_request W tok query) = inr resp ->
  passes resp ->
  json_body resp = Some (PyDict body) ->
  search_walmart_products query W t
    = products_of_items (default (PyList []) (body !! "items")) W
        (t1 ++ [catalog_request W tok query]).
Proof.
  intros Htok Hresp Hok Hbody.
  rewrite (search_after_token _ _ _ _ _ Htok), Hresp.
  rewrite run_bind, (raise_for_status_passes _ _ _ Hok).
  rewrite run_bind. unfold json. rewrite Hbody. reflexivity.
Qed.

(** A search that returns has gone through the loop over [items[:1]]. *)
Lemma search_returns_through_loop (W : World) (t t' : Trace) (query : string)
    (found : list (gmap string PyVal)) :
  search_walmart_products query W t = (inr found, t') ->
  exists items t2, products_of_items items W t2 = (inr found, t').
Proof.
  pose proof (get_walmart_access_token_run W t) as Htok.
  destruct (token_of_answer _) as [e | tok].
  { rewrite (search_after_token_failure _ _ _ _ _ Htok). discriminate. }
  rewrite (search_after_token _ _ _ _ _ Htok).
  destruct (respond W _ _) as [e | resp]; [discriminate |].
  rewrite run_bind. unfold raise_for_status.
  destruct (bool_decide _); [discriminate |].
  unfold ret at 1. rewrite run_bind. unfold json.
  destruct (json_body resp) as [body |]; [| discriminate].
  unfold ret at 1. rewrite run_bind.
  destruct body; try discriminate.
  unfold py_get, ret at 1. intros Hloop. eauto.
Qed.

Lemma products_of_items_shape (items : PyVal) (W : World) (t t' : Trace)
    (found : list (gmap string PyVal)) :
  products_of_items items W t = (inr found, t') ->
  found = []
  \/ exists name itemId url : PyVal,
       found = [ {[ "name" := name; "itemId" := itemId; "url" := url ]} ].
Proof.
  unfold products_of_items. rewrite run_bind.
  destruct items as [| | | | s | l |]; try discriminate.
  - destruct s; simpl; [intros [= <- _]; left; reflexivity | discriminate].
  - destruct l as [| item rest]; simpl; [intros [= <- _]; left; reflexivity |].
    destruct item; try discriminate.
    run_monad. intros [= <- _]. right. eauto.
Qed.

(** X5.  Whenever [search_walmart_products] returns, it returns at most one
    product, and a returned product has exactly the keys [name], [itemId]
    and [url] (a field the catalog item lacks is present with [None]). *)
Theorem search_result_shape (W : World) (t t' : Trace) (query : string)
    (found : list (gmap string PyVal)) :
  search_walmart_products query W t = (inr found, t') ->
  (length found <= 1)%nat
  /\ Forall (fun product => dom product = ({[ "name"; "itemId"; "url" ]} : gset string))
       found.
Proof.
  intros Hrun.
  destruct (search_returns_through_loop _ _ _ _ _ Hrun) as (items & t2 & Hloop).
  destruct (products_of_items_shape _ _ _ _ _ Hloop)
    as [-> | (name & itemId & url & ->)].
  - split; [simpl; lia | constructor].
  - split; [simpl; lia |]. constructor; [| constructor].
    rewrite !dom_insert_L, dom_singleton_L. set_solver.
Qed.

Lemma search_result_shape_witness :
  (length [ ({[ "name" := PyStr "Roma tomatoes"; "itemId" := PyStr "42";
               "url" := PyStr "https://www.walmart.com/ip/42" ]} : gmap string PyVal) ]
     <= 1)%nat
  /\ Forall (fun product => dom product = ({[ "name"; "itemId"; "url" ]} : gset string))
       [ ({[ "name" := PyStr "Roma tomatoes"; "itemId" := PyStr "42";
             "url" := PyStr "https://www.walmart.com/ip/42" ]} : gmap string PyVal) ].
Proof.
  apply (search_result_shape fixture []
           [token_request fixture; catalog_request fixture (PyStr "T") "tomatoes"]
           "tomatoes").
  reflexivity.
Defined.

(** X6.  When the catalog's JSON object has no [items] field, or has an
    empty [items] list, the search returns the empty list and does not
    raise. *)
Theorem search_without_items (W : World) (t t1 : Trace) (query : string)
    (tok : PyVal) (resp : Response) (body : gmap string PyVal) :
  get_walmart_access_token W t = (inr tok, t1) ->
  respond W t1 (catalog_request W tok query) = inr resp ->
  passes resp ->
  json_body resp = Some (PyDict body) ->
  body !! "items" = None \/ body !! "items" = Some (PyList []) ->
  search_walmart_products query W t = (inr [], t1 ++ [catalog_request W tok query]).
Proof.
  intros Htok Hresp Hok Hbody Hitems.
  rewrite (search_with_body _ _ _ _ _ _ _ Htok Hresp Hok Hbody).
  destruct Hitems as [-> | ->]; reflexivity.
Qed.

Lemma search_without_items_witness :
  outcome (search_walmart_products "saffron"
             (stub_world token_T (ok_value (PyDict ∅)) [] echo) []) = inr []
  /\ outcome (search_walmart_products "saffron"
                (stub_world token_T (ok_value (PyDict {[ "items" := PyList [] ]})) [] echo) [])
     = inr [].
Proof.
  split.
  - unfold outcome.
    rewrite (search_without_items
               (stub_world token_T (ok_value (PyDict ∅)) [] echo) []
               [token_request (stub_world token_T (ok_value (PyDict ∅)) [] echo)]
               "saffron" (PyStr "T")
               {| status_code := 200; json_body := Some (PyDict ∅) |} ∅).
    + reflexivity.
    + reflexivity.
    + reflexivity.
    + unfold passes; simpl; lia.
    + reflexivity.
    + left. reflexivity.
  - unfold outcome.
    rewrite (search_without_items
               (stub_world token_T (ok_value (PyDict {[ "items" := PyList [] ]})) [] echo) []
               [token_request
                  (stub_world token_T (ok_value (PyDict {[ "items" := PyList [] ]})) [] echo)]
               "saffron" (PyStr "T")
               {| status_code := 200;
                  json_body := Some (PyDict {[ "items" := PyList [] ]}) |}
               {[ "items" := PyList [] ]}).
    + reflexivity.
    + reflexivity.
    + reflexivity.
    + unfold passes; simpl; lia.
    + reflexivity.
    + right. reflexivity.
Defined.

(** X7.  When the [items] field is present but holds [null], a boolean or a
    number, the default [[]] is not used and the search raises the
    [TypeError] of an object that is not subscriptable, whose message names
    the type of the value, instead of returning the empty list. *)
Theorem search_items_not_subscriptable (W : World) (t t1 : Trace) (query : string)
    (tok : PyVal) (resp : Response) (body : gmap string PyVal) (v : PyVal) :
  get_walmart_access_token W t = (inr tok, t1) ->
  respond W t1 (catalog_request W tok query) = inr resp ->
  passes resp ->
  json_body resp = Some (PyDict body) ->
  body !! "items" = Some v ->
  not_subscriptable v = true ->
  outcome (search_walmart_products query W t)
    = inl (TypeError ("'" +:+ type_name v +:+ "' object is not subscriptable")).
Proof.
  intros Htok Hresp Hok Hbody Hitems Hv.
  rewrite (search_with_body _ _ _ _ _ _ _ Htok Hresp Hok Hbody), Hitems.
  destruct v; try discriminate; reflexivity.
Qed.

Lemma search_items_not_subscriptable_witness :
  outcome (search_walmart_products "saffron"
             (stub_world token_T (ok_value (PyDict {[ "items" := PyNone ]})) [] echo) [])
    = inl (TypeError "'NoneType' object is not subscriptable").
Proof.
  apply (search_items_not_subscriptable
           (stub_world token_T (ok_value (PyDict {[ "items" := PyNone ]})) [] echo) []
           [token_request (stub_world token_T (ok_value (PyDict {[ "items" := PyNone ]})) [] echo)]
           "saffron" (PyStr "T")
           {| status_code := 200; json_body := Some (PyDict {[ "items" := PyNone ]}) |}
           {[ "items" := PyNone ]} PyNone).
  - reflexivity.
  - reflexivity.
  - unfold passes; simpl; lia.
  - reflexivity.
  - reflexivity.
  - reflexivity.
Defined.

(** X8.  When the first element of [items] is not an object, the search
    raises [AttributeError], whatever follows it in the list: well-formed
    later items are not used instead. *)
Theorem search_first_item_not_object (W : World) (t t1 : Trace) (query : string)
    (tok : PyVal) (resp : Response) (body : gmap string PyVal)
    (item : PyVal) (rest : list PyVal) :
  get_walmart_access_token W t = (inr tok, t1) ->
  respond W t1 (catalog_request W tok query) = inr resp ->
  passes resp ->
  json_body resp = Some (PyDict body) ->
  body !! "items" = Some (PyList (item :: rest)) ->
  is_dict item = false ->
  outcome (search_walmart_products query W t) = inl (AttributeError "get").
Proof.
  intros Htok Hresp Hok Hbody Hitems Hitem.
  rewrite (search_with_body _ _ _ _ _ _ _ Htok Hresp Hok Hbody), Hitems.
  destruct item; try discriminate; reflexivity.
Qed.

Lemma search_first_item_not_object_witness :
  outcome (search_walmart_products "tomatoes"
             (stub_world token_T
                (ok_value (PyDict {[ "items" := PyList [PyStr "Roma tomatoes"; PyDict item_cherry] ]}))
                [] echo) [])
    = inl (AttributeError "get").
Proof.
  apply (search_first_item_not_object
           (stub_world token_T
              (ok_value (PyDict {[ "items" := PyList [PyStr "Roma tomatoes"; PyDict item_cherry] ]}))
              [] echo) []
           [token_request
              (stub_world token_T
                 (ok_value (PyDict {[ "items" := PyList [PyStr "Roma tomatoes"; PyDict item_cherry] ]}))
                 [] echo)]
           "tomatoes" (PyStr "T")
           {| status_code := 200;
              json_body := Some (PyDict {[ "items" := PyList [PyStr "Roma tomatoes"; PyDict item_cherry] ]}) |}
           {[ "items" := PyList [PyStr "Roma tomatoes"; PyDict item_cherry] ]}
           (PyStr "Roma tomatoes") [PyDict item_cherry]).
  - reflexivity.
  - reflexivity.
  - unfold passes; simpl; lia.
  - reflexivity.
  - reflexivity.
  - reflexivity.
Defined.

(** X9.  On a passing status, a catalog response whose body is not valid
    JSON makes the search raise [JSONDecodeError], and a body that is valid
    JSON but not an object makes it raise [AttributeError]; in both cases
    the two requests have been made and nothing is returned. *)
Theorem search_malformed_body (W : World) (t t1 : Trace) (query : string)
    (tok : PyVal) (resp : Response) :
  get_walmart_access_token W t = (inr tok, t1) ->
  respond W t1 (catalog_request W tok query) = inr resp ->
  passes resp ->
  (json_body resp = None ->
   search_walmart_products query W t
     = (inl JSONDecodeError, t1 ++ [catalog_request W tok query]))
  /\ (forall v : PyVal,
        json_body resp = Some v ->
        is_dict v = false ->
        search_walmart_products query W t
          = (inl (AttributeError "get"), t1 ++ [catalog_request W tok query])).
Proof.
  intros Htok Hresp Hok.
  rewrite (search_after_token _ _ _ _ _ Htok), Hresp.
  rewrite run_bind, (raise_for_status_passes _ _ _ Hok).
  rewrite run_bind. unfold json. split.
  - intros ->. reflexivity.
  - intros v -> Hv. destruct v; try discriminate; reflexivity.
Qed.

Lemma search_malformed_body_witness :
  outcome (search_walmart_products "tomatoes"
             (stub_world token_T (status_only 200) [] echo) [])
    = inl JSONDecodeError
  /\ outcome (search_walmart_products "tomatoes"
                (stub_world token_T (ok_value (PyList [PyDict item_roma])) [] echo) [])
     = inl (AttributeError "get").
Proof.
  split.
  - destruct (search_malformed_body
                (stub_world token_T (status_only 200) [] echo) []
                [token_request (stub_world token_T (status_only 200) [] echo)]
                "tomatoes" (PyStr "T") {| status_code := 200; json_body := None |})
      as [Hnone _].
    + reflexivity.
    + reflexivity.
    + unfold passes; simpl; lia.
    + unfold outcome. rewrite Hnone; reflexivity.
  - destruct (search_malformed_body
                (stub_world token_T (ok_value (PyList [PyDict item_roma])) [] echo) []
                [token_request (stub_world token_T (ok_value (PyList [PyDict item_roma])) [] echo)]
                "tomatoes" (PyStr "T")
                {| status_code := 200; json_body := Some (PyList [PyDict item_roma]) |})
      as [_ Hbody].
    + reflexivity.
    + reflexivity.
    + unfold passes; simpl; lia.
    + unfold outcome. rewrite (Hbody (PyList [PyDict item_roma])); reflexivity.
Defined.

(** X10.  A string token obtained from the token endpoint is sent to the
    catalog verbatim after [Bearer ] in the [Authorization] header, together
    with the two fixed headers and the query as the only parameter. *)
Theorem search_sends_bearer_token (W : World) (t : Trace) (query : string)
    (resp : Response) (d : gmap string PyVal) (T : string) :
  respond W t (token_request W) = inr resp ->
  passes resp ->
  json_body resp = Some (PyDict d) ->
  d !! "access_token" = Some (PyStr T) ->
  exists headers : gmap string string,
    log (search_walmart_products query W t)
      = t ++ [token_request W; HttpGet items_url headers {[ "query" := query ]}]
    /\ headers !! "Authorization" = Some ("Bearer " +:+ T)
    /\ headers !! "WM_QOS.CORRELATION_ID" = Some "1234567890"
    /\ headers !! "WM_SVC.NAME" = Some "Walmart Marketplace"
    /\ dom headers
       = ({[ "Authorization"; "WM_QOS.CORRELATION_ID"; "WM_SVC.NAME" ]} : gset string).
Proof.
  intros Hresp Hok Hbody Hfield.
  assert (get_walmart_access_token W t = (inr (PyStr T), t ++ [token_request W])) as Htok.
  { rewrite get_walmart_access_token_run, Hresp. unfold token_of_answer.
    rewrite bool_decide_eq_false_2 by exact Hok.
    rewrite Hbody, Hfield. reflexivity. }
  exists (search_headers W (PyStr T)).
  rewrite (search_log_after_token _ _ _ _ _ Htok), <- app_assoc.
  split; [reflexivity |].
  repeat (split; [reflexivity |]).
  unfold search_headers. rewrite !dom_insert_L, dom_singleton_L. set_solver.
Qed.

Lemma search_sends_bearer_token_witness :
  exists headers : gmap string string,
    log (search_walmart_products "tomatoes" fixture [])
      = [token_request fixture; HttpGet items_url headers {[ "query" := "tomatoes" ]}]
    /\ headers !! "Authorization" = Some "Bearer T"
    /\ headers !! "WM_QOS.CORRELATION_ID" = Some "1234567890"
    /\ headers !! "WM_SVC.NAME" = Some "Walmart Marketplace"
    /\ dom headers
       = ({[ "Authorization"; "WM_QOS.CORRELATION_ID"; "WM_SVC.NAME" ]} : gset string).
Proof.
  apply (search_sends_bearer_token fixture [] "tomatoes"
           {| status_code := 200;
              json_body := Some (PyDict {[ "access_token" := PyStr "T" ]}) |}
           {[ "access_token" := PyStr "T" ]} "T").
  - reflexivity.
  - unfold passes; simpl; lia.
  - reflexivity.
  - reflexivity.
Defined.

(** * The user's ingredient list (line 113) *)

(** ** Characters *)

Ltac by_cases_on_char c :=
  destruct c as [[] [] [] [] [] [] [] []]; reflexivity.

Lemma lower_char_space (c : ascii) : is_space (lower_char c) = is_space c.
Proof. by_cases_on_char c. Qed.

Lemma lower_char_not_upper (c : ascii) : is_upper (lower_char c) = false.
Proof. by_cases_on_char c. Qed.

Lemma lower_char_idem (c : ascii) : lower_char (lower_char c) = lower_char c.
Proof. by_cases_on_char c. Qed.

Lemma lower_char_comma (c : ascii) :
  Ascii.eqb (lower_char c) "," = Ascii.eqb c ",".
Proof. by_cases_on_char c. Qed.

(** ** Strings as lists of characters *)

Lemma append_nil_r (s : string) : s +:+ EmptyString = s.
Proof. induction s as [| c s IH]; [reflexivity |]. change (String c (s +:+ EmptyString) = String c s). rewrite IH. reflexivity. Qed.

Lemma append_cons (c : ascii) (s r : string) :
  String c s +:+ r = String c (s +:+ r).
Proof. reflexivity. Qed.

Lemma string_of_list_ascii_app (l1 l2 : list ascii) :
  string_of_list_ascii (l1 ++ l2)
    = string_of_list_ascii l1 +:+ string_of_list_ascii l2.
Proof.
  induction l1 as [| c l1 IH]; [reflexivity |].
  simpl. rewrite IH. reflexivity.
Qed.

Lemma list_ascii_of_string_app (s1 s2 : string) :
  list_ascii_of_string (s1 +:+ s2)
    = list_ascii_of_string s1 ++ list_ascii_of_string s2.
Proof.
  induction s1 as [| c s1 IH]; [reflexivity |].
  rewrite append_cons. simpl. rewrite IH. reflexivity.
Qed.

Lemma rev_string_involutive (s : string) : rev_string (rev_string s) = s.
Proof.
  unfold rev_string.
  rewrite list_ascii_of_string_of_list_ascii, rev_involutive.
  apply string_of_list_ascii_of_string.
Qed.

Lemma rev_string_app (s1 s2 : string) :
  rev_string (s1 +:+ s2) = rev_string s2 +:+ rev_string s1.
Proof.
  unfold rev_string.
  rewrite list_ascii_of_string_app, rev_app_distr.
  apply string_of_list_ascii_app.
Qed.

Lemma rev_string_cons (c : ascii) (s : string) :
  rev_string (String c s) = rev_string s +:+ String c EmptyString.
Proof. apply (rev_string_app (String c EmptyString) s). Qed.

(** ** [lower] *)

Lemma lower_app (s1 s2 : string) : lower (s1 +:+ s2) = lower s1 +:+ lower s2.
Proof.
  induction s1 as [| c s1 IH]; [reflexivity |].
  rewrite append_cons. simpl. rewrite IH. reflexivity.
Qed.

Lemma lower_rev_string (s : string) : lower (rev_string s) = rev_string (lower s).
Proof.
  induction s as [| c s IH]; [reflexivity |].
  simpl lower. rewrite !rev_string_cons, lower_app, IH. reflexivity.
Qed.

Lemma lower_idem (s : string) : lower (lower s) = lower s.
Proof.
  induction s as [| c s IH]; [reflexivity |].
  simpl. rewrite lower_char_idem, IH. reflexivity.
Qed.

Lemma lower_char_fixes (c : ascii) : is_upper c = false -> lower_char c = c.
Proof.
  destruct c as [[] [] [] [] [] [] [] []]; intros H;
    first [reflexivity | discriminate H].
Qed.

Lemma lower_fixes_lowercase (s : string) : has_upper s = false -> lower s = s.
Proof.
  induction s as [| c s IH]; [reflexivity |].
  simpl. intros [Hc Hs]%orb_false_iff.
  rewrite (lower_char_fixes _ Hc), (IH Hs). reflexivity.
Qed.

Lemma lower_has_no_upper (s : string) : has_upper (lower s) = false.
Proof.
  induction s as [| c s IH]; [reflexivity |].
  simpl. rewrite lower_char_not_upper, IH. reflexivity.
Qed.

Lemma lower_lstrip (s : string) : lstrip (lower s) = lower (lstrip s).
Proof.
  induction s as [| c s IH]; [reflexivity |].
  simpl. rewrite lower_char_space.
  destruct (is_space c); [exact IH | reflexivity].
Qed.

Lemma lower_strip (s : string) : strip (lower s) = lower (strip s).
Proof.
  unfold strip.
  rewrite lower_lstrip, <- lower_rev_string, lower_lstrip, <- lower_rev_string.
  reflexivity.
Qed.

(** ** [strip] *)

Lemma lstrip_starts_clean (s : string) : starts_with_space (lstrip s) = false.
Proof.
  induction s as [| c s IH]; [reflexivity |].
  simpl. destruct (is_space c) eqn:Hc; [exact IH |].
  simpl. exact Hc.
Qed.

Lemma lstrip_clean (s : string) : starts_with_space s = false -> lstrip s = s.
Proof.
  destruct s as [| c s]; [reflexivity |].
  simpl. intros ->. reflexivity.
Qed.

(** [lstrip] drops a prefix. *)
Lemma lstrip_suffix (s : string) : exists ws, s = ws +:+ lstrip s.
Proof.
  induction s as [| c s [ws IH]]; [exists EmptyString; reflexivity |].
  simpl. destruct (is_space c).
  - exists (String c ws). rewrite append_cons, <- IH. reflexivity.
  - exists EmptyString. reflexivity.
Qed.

Lemma starts_with_space_app (s r : string) :
  s <> EmptyString -> starts_with_space (s +:+ r) = starts_with_space s.
Proof. destruct s; [congruence | reflexivity]. Qed.

Lemma strip_trimmed (s : string) : trimmed (strip s) = true.
Proof.
  unfold trimmed, strip.
  rewrite rev_string_involutive, lstrip_starts_clean, andb_true_r.
  apply negb_true_iff.
  pose proof (lstrip_starts_clean s) as Hy.
  destruct (lstrip_suffix (rev_string (lstrip s))) as [ws Hws].
  apply (f_equal rev_string) in Hws.
  rewrite rev_string_involutive, rev_string_app in Hws.
  destruct (rev_string (lstrip (rev_string (lstrip s)))) as [| c r] eqn:Hr;
    [reflexivity |].
  rewrite Hws in Hy. exact Hy.
Qed.

Lemma strip_fixes_trimmed (s : string) : trimmed s = true -> strip s = s.
Proof.
  unfold trimmed, strip. intros [Hl Hr]%andb_true_iff.
  apply negb_true_iff in Hl, Hr.
  rewrite (lstrip_clean _ Hl), (lstrip_clean _ Hr).
  apply rev_string_involutive.
Qed.

Lemma lower_trimmed (s : string) : trimmed (lower s) = trimmed s.
Proof.
  unfold trimmed. rewrite <- lower_rev_string.
  assert (forall x, starts_with_space (lower x) = starts_with_space x) as Hstart.
  { intros [| c x]; [reflexivity | apply lower_char_space]. }
  rewrite !Hstart. reflexivity.
Qed.

(** ** Counting a character *)

Lemma count_char_app (c : ascii) (s r : string) :
  count_char c (s +:+ r) = (count_char c s + count_char c r)%nat.
Proof.
  induction s as [| c' s IH]; [reflexivity |].
  rewrite append_cons. simpl. rewrite IH. lia.
Qed.

Lemma count_char_rev_string (c : ascii) (s : string) :
  count_char c (rev_string s) = count_char c s.
Proof.
  induction s as [| c' s IH]; [reflexivity |].
  rewrite rev_string_cons, count_char_app, IH. simpl. lia.
Qed.

Lemma count_char_lstrip (c : ascii) (s : string) :
  (count_char c (lstrip s) <= count_char c s)%nat.
Proof.
  destruct (lstrip_suffix s) as [ws Hws].
  rewrite Hws at 2. rewrite count_char_app. lia.
Qed.

Lemma count_char_strip (c : ascii) (s : string) :
  (count_char c (strip s) <= count_char c s)%nat.
Proof.
  unfold strip. rewrite count_char_rev_string.
  etransitivity; [apply count_char_lstrip |].
  rewrite count_char_rev_string. apply count_char_lstrip.
Qed.

Lemma count_comma_lower (s : string) :
  count_char "," (lower s) = count_char "," s.
Proof.
  induction s as [| c s IH]; [reflexivity |].
  simpl. rewrite lower_char_comma, IH. reflexivity.
Qed.

(** ** [split_on] *)

Lemma split_on_not_nil (sep : ascii) (s : string) : split_on sep s <> [].
Proof.
  induction s as [| c s IH]; simpl; [discriminate |].
  destruct (Ascii.eqb c sep); [discriminate |].
  destruct (split_on sep s); discriminate.
Qed.

Lemma split_on_length (sep : ascii) (s : string) :
  length (split_on sep s) = S (count_char sep s).
Proof.
  induction s as [| c s IH]; [reflexivity |].
  simpl. destruct (Ascii.eqb c sep); simpl; [rewrite IH; reflexivity |].
  destruct (split_on sep s) as [| w ws]; simpl in *; [discriminate | exact IH].
Qed.

Lemma split_on_fields_free (sep : ascii) (s : string) :
  Forall (fun w => count_char sep w = 0%nat) (split_on sep s).
Proof.
  induction s as [| c s IH]; simpl.
  - constructor; [reflexivity | constructor].
  - destruct (Ascii.eqb c sep) eqn:Hc.
    + constructor; [reflexivity | exact IH].
    + destruct (split_on sep s) as [| w ws].
      * constructor; [simpl; rewrite Hc; reflexivity | constructor].
      * inversion IH as [| ? ? Hw Hws]; subst.
        constructor; [simpl; rewrite Hc; exact Hw | exact Hws].
Qed.

(** X15.  Splitting loses nothing: joining the fields of
    [ingredients.split(",")] with the separator gives the string back, for
    every string and every separator character. *)
Theorem split_on_join (sep : ascii) (s : string) :
  String.concat (String sep EmptyString) (split_on sep s) = s.
Proof.
  induction s as [| c s IH]; [reflexivity |].
  simpl split_on. destruct (Ascii.eqb c sep) eqn:Hc.
  - apply Ascii.eqb_eq in Hc. subst c.
    pose proof (split_on_not_nil sep s) as Hne.
    destruct (split_on sep s) as [| w ws]; [congruence |].
    change (String sep (String.concat (String sep EmptyString) (w :: ws)) = String sep s).
    rewrite IH. reflexivity.
  - destruct (split_on sep s) as [| w ws]; [simpl in IH; subst s; reflexivity |].
    destruct ws as [| w' ws].
    + simpl in *. subst s. reflexivity.
    + change (String c (String.concat (String sep EmptyString) (w :: w' :: ws)) = String c s).
      rewrite IH. reflexivity.
Qed.

Lemma split_comma_lower (s : string) :
  split_on "," (lower s) = lower <$> split_on "," s.
Proof.
  induction s as [| c s IH]; [reflexivity |].
  simpl. rewrite lower_char_comma, IH.
  destruct (Ascii.eqb c ","); [reflexivity |].
  destruct (split_on "," s); reflexivity.
Qed.

Lemma split_on_free (sep : ascii) (s : string) :
  count_char sep s = 0%nat -> split_on sep s = [s].
Proof.
  induction s as [| c s IH]; [reflexivity |].
  simpl. destruct (Ascii.eqb c sep); [discriminate |].
  intros Hs. rewrite (IH Hs). reflexivity.
Qed.

(** ** ASCII text stays ASCII *)

Lemma lower_char_ascii (c : ascii) :
  (nat_of_ascii (lower_char c) <? 128)%nat = (nat_of_ascii c <? 128)%nat.
Proof. by_cases_on_char c. Qed.

Lemma is_ascii_lower (s : string) : is_ascii (lower s) = is_ascii s.
Proof.
  induction s as [| c s IH]; [reflexivity |].
  simpl. rewrite lower_char_ascii, IH. reflexivity.
Qed.

Lemma is_ascii_app (s r : string) :
  is_ascii (s +:+ r) = is_ascii s && is_ascii r.
Proof.
  induction s as [| c s IH]; [reflexivity |].
  rewrite append_cons. simpl. rewrite IH, andb_assoc. reflexivity.
Qed.

Lemma is_ascii_rev_string (s : string) : is_ascii (rev_string s) = is_ascii s.
Proof.
  induction s as [| c s IH]; [reflexivity |].
  rewrite rev_string_cons, is_ascii_app, IH. simpl.
  rewrite andb_true_r. apply andb_comm.
Qed.

Lemma is_ascii_lstrip (s : string) : is_ascii s = true -> is_ascii (lstrip s) = true.
Proof.
  destruct (lstrip_suffix s) as [ws Hws]. intros Hs.
  rewrite Hws, is_ascii_app in Hs.
  apply andb_true_iff in Hs. apply Hs.
Qed.

Lemma is_ascii_strip (s : string) : is_ascii s = true -> is_ascii (strip s) = true.
Proof.
  intros Hs. unfold strip.
  rewrite is_ascii_rev_string. apply is_ascii_lstrip.
  rewrite is_ascii_rev_string. apply is_ascii_lstrip, Hs.
Qed.

Lemma is_ascii_split_on (sep : ascii) (s : string) :
  is_ascii s = true -> Forall (fun w => is_ascii w = true) (split_on sep s).
Proof.
  induction s as [| c s IH]; simpl.
  - intros _. constructor; [reflexivity | constructor].
  - intros [Hc Hs]%andb_true_iff. specialize (IH Hs).
    destruct (Ascii.eqb c sep).
    + constructor; [reflexivity | exact IH].
    + destruct (split_on sep s) as [| w ws].
      * constructor; [simpl; rewrite Hc; reflexivity | constructor].
      * inversion IH as [| ? ? Hw Hws]; subst.
        constructor; [simpl; rewrite Hc, Hw; reflexivity | exact Hws].
Qed.

(** The fields of an ASCII string are ASCII and free of commas. *)
Lemma split_comma_fields (s : string) :
  is_ascii s = true ->
  Forall (fun w => is_ascii w = true /\ count_char "," w = 0%nat) (split_on "," s).
Proof.
  intros Hs. apply Forall_and. split.
  - apply is_ascii_split_on, Hs.
  - apply split_on_fields_free.
Qed.

Lemma normalised_entry (w : string) :
  count_char "," w = 0%nat ->
  trimmed (lower (strip w)) = true
  /\ has_upper (lower (strip w)) = false
  /\ count_char "," (lower (strip w)) = 0%nat.
Proof.
  intros Hw. split; [| split].
  - rewrite lower_trimmed. apply strip_trimmed.
  - apply lower_has_no_upper.
  - rewrite count_comma_lower.
    pose proof (count_char_strip "," w). lia.
Qed.

(** ** The list of line 113 *)

(** X11.  The ingredient list has one entry per comma-separated field of
    the input, empty fields included: its length is the number of commas
    plus one, so it is never empty (the empty string gives one empty
    ingredient). *)
Theorem user_ingredients_count (ingredients : string) :
  length (user_ingredients ingredients) = S (count_char "," ingredients)
  /\ user_ingredients ingredients <> [].
Proof.
  assert (length (user_ingredients ingredients) = S (count_char "," ingredients)) as Hlen.
  { unfold user_ingredients. rewrite length_fmap. apply split_on_length. }
  split; [exact Hlen |].
  intros Hnil. rewrite Hnil in Hlen. discriminate.
Qed.

(** X12.  For an ingredient string of ASCII characters, every entry of the
    ingredient list is normalised: it is ASCII, has no white space at either
    end, no letter [A] to [Z], and no comma. *)
Theorem user_ingredients_normalised (ingredients : string) :
  is_ascii ingredients = true ->
  Forall (fun e => is_ascii e = true
                   /\ trimmed e = true
                   /\ has_upper e = false
                   /\ count_char "," e = 0%nat)
    (user_ingredients ingredients).
Proof.
  intros Hascii. unfold user_ingredients. apply Forall_fmap.
  eapply Forall_impl; [apply split_comma_fields, Hascii |].
  intros w [Hw Hfree]. simpl. split.
  - rewrite is_ascii_lower. apply is_ascii_strip, Hw.
  - apply normalised_entry, Hfree.
Qed.

Lemma user_ingredients_normalised_witness :
  Forall (fun e => is_ascii e = true
                   /\ trimmed e = true
                   /\ has_upper e = false
                   /\ count_char "," e = 0%nat)
    (user_ingredients " Tomatoes,PASTA  , Basil leaves").
Proof.
  apply (user_ingredients_normalised " Tomatoes,PASTA  , Basil leaves").
  reflexivity.
Defined.

(** X13.  For an ingredient string of ASCII characters, normalising is
    idempotent: an entry of the ingredient list is ASCII and, given to line
    113 again, comes back as the single ingredient it is. *)
Theorem user_ingredients_stable (ingredients : string) :
  is_ascii ingredients = true ->
  Forall (fun e => is_ascii e = true /\ user_ingredients e = [e])
    (user_ingredients ingredients).
Proof.
  intros Hascii. unfold user_ingredients at 2. apply Forall_fmap.
  eapply Forall_impl; [apply split_comma_fields, Hascii |].
  intros w [Hw Hcomma]. simpl.
  destruct (normalised_entry w Hcomma) as (Htrim & Hlow & Hfree).
  split; [rewrite is_ascii_lower; apply is_ascii_strip, Hw |].
  unfold user_ingredients. rewrite (split_on_free _ _ Hfree). simpl.
  rewrite (strip_fixes_trimmed _ Htrim), (lower_fixes_lowercase _ Hlow).
  reflexivity.
Qed.

Lemma user_ingredients_stable_witness :
  Forall (fun e => is_ascii e = true /\ user_ingredients e = [e])
    (user_ingredients " Tomatoes,PASTA  , Basil leaves").
Proof.
  apply (user_ingredients_stable " Tomatoes,PASTA  , Basil leaves").
  reflexivity.
Defined.

(** X14.  On ASCII text the ingredient list does not depend on the case of
    the letters: two ASCII inputs that agree once put in lower case give the
    same list. *)
Theorem user_ingredients_ignores_case (s1 s2 : string) :
  is_ascii s1 = true ->
  is_ascii s2 = true ->
  lower s1 = lower s2 ->
  user_ingredients s1 = user_ingredients s2.
Proof.
  assert (forall s, user_ingredients s = user_ingredients (lower s)) as Hlower.
  { intros s. unfold user_ingredients.
    rewrite split_comma_lower, <- list_fmap_compose.
    apply list_fmap_ext. intros _ w _. simpl.
    rewrite lower_strip, lower_idem. reflexivity. }
  intros _ _ Heq. rewrite (Hlower s1), (Hlower s2), Heq. reflexivity.
Qed.

Lemma user_ingredients_ignores_case_witness :
  user_ingredients "Tomatoes, PASTA" = user_ingredients "tomatoes, pasta".
Proof.
  apply (user_ingredients_ignores_case "Tomatoes, PASTA" "tomatoes, pasta");
    reflexivity.
Defined.

(** * Further edge cases *)

(** X16.  When the [items] field holds a string instead of a list, the
    slice [items[:1]] is a string too: an empty string gives the empty
    result, and any other string makes the search raise [AttributeError],
    its first character having no [get]. *)
Theorem search_items_string (W : World) (t t1 : Trace) (query : string)
    (tok : PyVal) (resp : Response) (body : gmap string PyVal) (s : string) :
  get_walmart_access_token W t = (inr tok, t1) ->
  respond W t1 (catalog_request W tok query) = inr resp ->
  passes resp ->
  json_body resp = Some (PyDict body) ->
  body !! "items" = Some (PyStr s) ->
  outcome (search_walmart_products query W t)
    = if decide (s = EmptyString) then inr [] else inl (AttributeError "get").
Proof.
  intros Htok Hresp Hok Hbody Hitems.
  rewrite (search_with_body _ _ _ _ _ _ _ Htok Hresp Hok Hbody), Hitems.
  destruct s; reflexivity.
Qed.

Lemma search_items_string_witness :
  outcome (search_walmart_products "tomatoes"
             (stub_world token_T (ok_value (PyDict {[ "items" := PyStr "none" ]})) [] echo) [])
    = inl (AttributeError "get").
Proof.
  apply (search_items_string
           (stub_world token_T (ok_value (PyDict {[ "items" := PyStr "none" ]})) [] echo) []
           [token_request
              (stub_world token_T (ok_value (PyDict {[ "items" := PyStr "none" ]})) [] echo)]
           "tomatoes" (PyStr "T")
           {| status_code := 200;
              json_body := Some (PyDict {[ "items" := PyStr "none" ]}) |}
           {[ "items" := PyStr "none" ]} "none").
  - reflexivity.
  - reflexivity.
  - unfold passes; simpl; lia.
  - reflexivity.
  - reflexivity.
Defined.
